(** * Verification model of the CassaGPT chat backend

    Shallow embedding of [backend/routers/chat.py] (endpoints
    [create_conversation], [handle_chat_message],
    [upload_file_to_conversation]) and of the background task
    [process_kb_upload_task] of [backend/routers/knowledge_bases.py].

    External collaborators (the relational database engine, the Qdrant
    client, the embedding / generation provider, Cloudinary, the document
    processor) are modelled as oracles: an [env] record gives, for every
    call the code makes, what that call returns or raises.  The SQLAlchemy
    session is modelled explicitly: [db.add] stages a row in the pending
    list, [db.commit] moves the pending rows to the committed tables,
    [db.rollback] and [db.close] drop them (the session is created with
    [autoflush=False], so pending rows are never flushed by a query). *)

From Stdlib Require Import String Ascii List Bool ZArith QArith Lia RelationClasses.
Import ListNotations.
Open Scope string_scope.
Open Scope list_scope.

(* ------------------------------------------------------------------ *)
(** ** Python strings *)

Definition nl : string := String (ascii_of_nat 10) EmptyString.

(** [str.isspace] on the ASCII range: \t \n \v \f \r, the separators
    \x1c-\x1f and the space. *)
Definition py_isspace (c : ascii) : bool :=
  let n := nat_of_ascii c in
  (((9 <=? n) && (n <=? 13)) || ((28 <=? n) && (n <=? 32)))%nat.

Fixpoint py_lstrip (s : string) : string :=
  match s with
  | EmptyString => EmptyString
  | String c r => if py_isspace c then py_lstrip r else s
  end.

Definition py_rstrip (s : string) : string :=
  string_of_list_ascii
    (rev (list_ascii_of_string (py_lstrip
       (string_of_list_ascii (rev (list_ascii_of_string s)))))).

(** [s.strip()] *)
Definition py_strip (s : string) : string := py_rstrip (py_lstrip s).

(** Truthiness of a Python [str]: non-empty. *)
Definition truthy (s : string) : bool := negb (String.eqb s "").

(** Truthiness of an [Optional[str]]. *)
Definition truthy_opt (o : option string) : bool :=
  match o with Some s => truthy s | None => false end.

Definition ascii_upper (c : ascii) : ascii :=
  let n := nat_of_ascii c in
  if ((97 <=? n) && (n <=? 122))%nat then ascii_of_nat (n - 32)%nat else c.

Definition ascii_lower (c : ascii) : ascii :=
  let n := nat_of_ascii c in
  if ((65 <=? n) && (n <=? 90))%nat then ascii_of_nat (n + 32)%nat else c.

Fixpoint lower_all (s : string) : string :=
  match s with
  | EmptyString => EmptyString
  | String c r => String (ascii_lower c) (lower_all r)
  end.

(** [str.capitalize] on ASCII strings. *)
Definition py_capitalize (s : string) : string :=
  match s with
  | EmptyString => EmptyString
  | String c r => String (ascii_upper c) (lower_all r)
  end.

(** ["sep".join(xs)] *)
Fixpoint py_join (sep : string) (xs : list string) : string :=
  match xs with
  | [] => ""
  | [x] => x
  | x :: r => x ++ sep ++ py_join sep r
  end.

(** [s[:n]] *)
Definition py_prefix (n : nat) (s : string) : string := substring 0 n s.

(** [x in xs] for a list / set of strings. *)
Definition mem (x : string) (xs : list string) : bool :=
  existsb (String.eqb x) xs.

(* ------------------------------------------------------------------ *)
(** ** Vector index data *)

(** Embedding vectors and scores are floats that the code only passes
    around; they are kept as rationals. *)
Definition vector := list Q.

(** A Qdrant payload as written by this code: a dict from string keys to
    string values (only string-valued keys are read back). *)
Definition payload := list (string * string).

(** [payload.get(k)] *)
Fixpoint pget (p : payload) (k : string) : option string :=
  match p with
  | [] => None
  | (k', v) :: r => if String.eqb k k' then Some v else pget r k
  end.

(** [payload.get(k, d)] *)
Definition pget_default (p : payload) (k d : string) : string :=
  match pget p k with Some v => v | None => d end.

(** A search hit [ScoredPoint]: id, score, payload. *)
Record hit := mk_hit { hit_id : string; hit_score : Q; hit_payload : payload }.

(** [PointStruct] *)
Record point := mk_point { pt_id : string; pt_vector : vector; pt_payload : payload }.

(** [SourceInfoSchema] *)
Record source_info := mk_source {
  src_type : string; src_filename : string; src_score : Q; src_text : string }.

(* ------------------------------------------------------------------ *)
(** ** Step 5 of [handle_chat_message]: combining the search results *)

(** The partition a context block was produced from. *)
Inductive partition := PKB | PUpload | PHistory.

(** An element of [context_chunks]: the formatted string [blk_text], with
    the partition and the Qdrant id of the hit it was produced from kept
    alongside (ghost data, not part of the string). *)
Record block := mk_block { blk_part : partition; blk_id : string; blk_text : string }.

(** Accumulator of the three loops: [context_chunks],
    [sources_for_response], [processed_qdrant_ids]. *)
Record acc := mk_acc {
  acc_chunks : list block; acc_sources : list source_info; acc_seen : list string }.

Definition kb_step (a : acc) (h : hit) : acc :=
  if mem (hit_id h) (acc_seen a) then a else
  match pget (hit_payload h) "text" with
  | Some chunk_text =>
      if truthy chunk_text then
        let source_file := pget_default (hit_payload h) "source_filename" "N/A" in
        mk_acc
          (acc_chunks a ++ [mk_block PKB (hit_id h)
             ("Context from Knowledge Base document '" ++ source_file ++ "':" ++ nl
              ++ chunk_text)])
          (acc_sources a ++ [mk_source "knowledge_base" source_file (hit_score h)
             (py_prefix 200%nat chunk_text ++ "...")])
          (acc_seen a ++ [hit_id h])
      else a
  | None => a
  end.

Definition upload_step (a : acc) (h : hit) : acc :=
  if mem (hit_id h) (acc_seen a) then a else
  match pget (hit_payload h) "text" with
  | Some chunk_text =>
      if truthy chunk_text then
        let source_file := pget_default (hit_payload h) "source_filename" "N/A" in
        mk_acc
          (acc_chunks a ++ [mk_block PUpload (hit_id h)
             ("Context from session uploaded file '" ++ source_file ++ "':" ++ nl
              ++ chunk_text)])
          (acc_sources a ++ [mk_source "session_upload" source_file (hit_score h)
             (py_prefix 200%nat chunk_text ++ "...")])
          (acc_seen a ++ [hit_id h])
      else a
  | None => a
  end.

(** The history loop appends to [history_chunks_temp] (here: the chunks of
    a separate accumulator) and shares [processed_qdrant_ids]. *)
Definition history_step (user_message_id : string)
    (st : list block * list string) (h : hit) : list block * list string :=
  let (temp, seen) := st in
  if mem (hit_id h) seen || String.eqb (hit_id h) user_message_id then st else
  match pget (hit_payload h) "text" with
  | Some text =>
      if truthy text then
        let speaker := pget_default (hit_payload h) "speaker" "unknown" in
        (temp ++ [mk_block PHistory (hit_id h) (py_capitalize speaker ++ ": " ++ text)],
         seen ++ [hit_id h])
      else st
  | None => st
  end.

(** Lines 359-406: returns [context_chunks] after the [extend] and
    [sources_for_response]. *)
Definition combine_context (user_message_id : string)
    (kb_search_results upload_search_results history_search_results : list hit)
    : list block * list source_info :=
  let a1 := fold_left kb_step kb_search_results (mk_acc [] [] []) in
  let a2 := fold_left upload_step upload_search_results a1 in
  let (history_chunks_temp, _) :=
    fold_left (history_step user_message_id) history_search_results
      ([], acc_seen a2) in
  (acc_chunks a2 ++ history_chunks_temp, acc_sources a2).

Definition context_sep : string := nl ++ nl ++ "---" ++ nl ++ nl.

Definition no_context_sentence : string :=
  "No specific context found from knowledge base, previous messages or session documents.".

(** Lines 407-410. *)
Definition finalize_context (context_chunks : list block) : string :=
  let context_string := py_join context_sep (map blk_text context_chunks) in
  if negb (truthy (py_strip context_string)) then no_context_sentence
  else context_string.

(** Lines 415-424: the prompt f-string. *)
Definition build_prompt (context_string user_query : string) : string :=
  "You are CassaGPT, a helpful AI assistant." ++ nl
  ++ "Answer the user's query based ONLY on the provided context below. If the context does not contain the answer, state that you cannot answer based on the provided information. Do not use external knowledge. Be concise." ++ nl
  ++ nl
  ++ "--- Context ---" ++ nl
  ++ context_string ++ nl
  ++ "--- End Context ---" ++ nl
  ++ nl
  ++ "User Query: " ++ user_query ++ nl
  ++ nl
  ++ "Assistant Response:".

(* ------------------------------------------------------------------ *)
(** ** Exceptions *)

(** Python exceptions reaching the endpoint code: FastAPI's
    [HTTPException] (status and detail) and every other exception, of
    which only [str(e)] is used. *)
Inductive exn :=
| HTTPException (status_code : Z) (detail : string)
| PyException (msg : string).

Definition digit (n : nat) : string :=
  String (ascii_of_nat (48 + n)) EmptyString.

Fixpoint nat_to_dec_aux (fuel n : nat) (accs : string) : string :=
  match fuel with
  | O => accs
  | S f =>
      let accs' := (digit (n mod 10) ++ accs)%string in
      if (n <? 10)%nat then accs' else nat_to_dec_aux f (n / 10) accs'
  end.

(** [str(n)] for a non-negative integer. *)
Definition Z_to_dec (z : Z) : string := nat_to_dec_aux (S (Z.to_nat z)) (Z.to_nat z) "".

(** [str(e)]; Starlette's [HTTPException.__str__] is
    [f"{status_code}: {detail}"]. *)
Definition exn_str (e : exn) : string :=
  match e with
  | HTTPException c d => Z_to_dec c ++ ": " ++ d
  | PyException m => m
  end.

(** What [QdrantService.add_points] / [search_points] raise when the
    client fails: they call [http.client.HTTPException(status_code=...,
    detail=...)], a plain [Exception] subclass that takes no keyword
    arguments, so the raise itself fails with a [TypeError]. *)
Definition qdrant_service_error : exn :=
  PyException "HTTPException() takes no keyword arguments".

(* ------------------------------------------------------------------ *)
(** ** Relational store and session *)

(** [Conversation] row. *)
Record conversation := mk_conversation {
  conv_id : string; conv_knowledge_base_id : option string; conv_model_id : option string }.

(** [Message] row. *)
Record message := mk_message {
  msg_id : string; msg_conversation_id : string; msg_speaker : string; msg_text : string }.

(** [UploadedDocument] row. *)
Record uploaded_document := mk_uploaded_document {
  ud_conversation_id : string; ud_doc_id : string; ud_filename : string }.

(** [KnowledgeBaseDocument] row (the columns the background task writes). *)
Record kb_document := mk_kb_document {
  kd_id : string; kd_status : string; kd_error_message : option string }.

(** Objects staged in the session by [db.add]. *)
Inductive row :=
| RConversation (c : conversation)
| RMessage (m : message)
| RUploadedDocument (d : uploaded_document).

(** Calls made to the external services, in order. *)
Record search_req := mk_search_req {
  sr_collection : string; sr_query_vector : vector;
  sr_filter : string * string; sr_limit : Z }.

Inductive call :=
| CEmbed (texts : list string)
| CUpsert (collection : string) (points : list point)
| CSearch (r : search_req)
| CGenerate (prompt model : string).

Record state := mk_state {
  st_conversations : list conversation;   (* committed rows *)
  st_knowledge_bases : list string;       (* ids of committed KnowledgeBase rows *)
  st_messages : list message;
  st_uploaded_documents : list uploaded_document;
  st_kb_documents : list kb_document;
  st_pending : list row;                  (* the session's staged objects *)
  st_points : list (string * point);      (* Qdrant: (collection, point) *)
  st_log : list call }.

(* ------------------------------------------------------------------ *)
(** ** A state and exception monad *)

Inductive outcome (A : Type) := Ok (a : A) | Raised (e : exn).
Arguments Ok {A} a.
Arguments Raised {A} e.

Definition M (A : Type) := state -> outcome A * state.

Definition ret {A} (a : A) : M A := fun s => (Ok a, s).
Definition bind {A B} (m : M A) (k : A -> M B) : M B :=
  fun s => match m s with
           | (Ok a, s') => k a s'
           | (Raised e, s') => (Raised e, s')
           end.
Definition raise {A} (e : exn) : M A := fun s => (Raised e, s).
(** [try: m except Exception as e: h(e)] *)
Definition catch {A} (m : M A) (h : exn -> M A) : M A :=
  fun s => match m s with
           | (Ok a, s') => (Ok a, s')
           | (Raised e, s') => h e s'
           end.
Definition modify (f : state -> state) : M unit := fun s => (Ok tt, f s).
Definition gets {A} (f : state -> A) : M A := fun s => (Ok (f s), s).

Declare Scope monad_scope.
Notation "x <- m ;; k" := (bind m (fun x => k))
  (at level 61, m at next level, right associativity) : monad_scope.
Notation "m ;; k" := (bind m (fun _ => k))
  (at level 61, right associativity) : monad_scope.
Open Scope monad_scope.

Definition set_pending (p : list row) (s : state) : state :=
  mk_state (st_conversations s) (st_knowledge_bases s) (st_messages s)
    (st_uploaded_documents s) (st_kb_documents s) p (st_points s) (st_log s).

Definition apply_row (s : state) (r : row) : state :=
  match r with
  | RConversation c =>
      mk_state (st_conversations s ++ [c]) (st_knowledge_bases s) (st_messages s)
        (st_uploaded_documents s) (st_kb_documents s) (st_pending s) (st_points s) (st_log s)
  | RMessage m =>
      mk_state (st_conversations s) (st_knowledge_bases s) (st_messages s ++ [m])
        (st_uploaded_documents s) (st_kb_documents s) (st_pending s) (st_points s) (st_log s)
  | RUploadedDocument d =>
      mk_state (st_conversations s) (st_knowledge_bases s) (st_messages s)
        (st_uploaded_documents s ++ [d]) (st_kb_documents s) (st_pending s) (st_points s) (st_log s)
  end.

Definition log_call (c : call) : M unit :=
  modify (fun s => mk_state (st_conversations s) (st_knowledge_bases s) (st_messages s)
    (st_uploaded_documents s) (st_kb_documents s) (st_pending s) (st_points s)
    (st_log s ++ [c])).

Definition store_points (collection : string) (pts : list point) : M unit :=
  modify (fun s => mk_state (st_conversations s) (st_knowledge_bases s) (st_messages s)
    (st_uploaded_documents s) (st_kb_documents s) (st_pending s)
    (st_points s ++ map (fun p => (collection, p)) pts) (st_log s)).

(** [db.add(obj)] *)
Definition db_add (r : row) : M unit :=
  modify (fun s => set_pending (st_pending s ++ [r]) s).

(** [db.rollback()] (and [db.close()]): staged objects are discarded. *)
Definition db_rollback : M unit := modify (set_pending []).

(** [db.commit()]: [fail] is what the database engine raises, if anything;
    a failed commit leaves the session's staged objects in place until the
    caller's rollback. *)
Definition db_commit (fail : option exn) : M unit :=
  match fail with
  | Some e => raise e
  | None => modify (fun s => set_pending [] (fold_left apply_row (st_pending s) s))
  end.

(** A request runs on a fresh session ([get_db]) which is closed at the
    end of the request. *)
Definition run_request {A} (m : M A) (s : state) : outcome A * state :=
  let (o, s') := m (set_pending [] s) in (o, set_pending [] s').

(* ------------------------------------------------------------------ *)
(** ** External services of a chat turn *)

(** The external services: [sv_upsert_ok] / [sv_search] describe the
    Qdrant client (a failing client call makes the service method raise
    [qdrant_service_error]); [sv_embed] and [sv_generate] describe the
    provider service methods themselves (including their retries). *)
Record services := mk_services {
  sv_embed : list string -> outcome (list vector);
  sv_upsert_ok : string -> list point -> bool;
  sv_search : search_req -> option (list hit);
  sv_generate : string -> string -> outcome string }.

Section Services.
Variable env : services.

(** [await embed_svc.get_embeddings(texts=...)] *)
Definition get_embeddings (texts : list string) : M (list vector) :=
  log_call (CEmbed texts) ;;
  match sv_embed env texts with
  | Ok v => ret v
  | Raised e => raise e
  end.

(** [QdrantService.add_points] *)
Definition add_points (collection : string) (pts : list point) : M unit :=
  match pts with
  | [] => ret tt
  | _ =>
      log_call (CUpsert collection pts) ;;
      if sv_upsert_ok env collection pts then store_points collection pts
      else raise qdrant_service_error
  end.

(** [QdrantService.search_points] *)
Definition search_points (r : search_req) : M (list hit) :=
  log_call (CSearch r) ;;
  match sv_search env r with
  | Some hits => ret hits
  | None => raise qdrant_service_error
  end.

(** [await together_svc.generate_text(prompt=..., model=...)] *)
Definition generate_text (prompt model : string) : M string :=
  log_call (CGenerate prompt model) ;;
  match sv_generate env prompt model with
  | Ok t => ret t
  | Raised e => raise e
  end.

End Services.

(** The oracle of one chat request: the generated ids, the services and
    what the final [db.commit()] raises, if anything. *)
Record chat_env := mk_chat_env {
  ce_user_message_id : string;
  ce_ai_message_id : string;
  ce_timestamp : string;
  ce_services : services;
  ce_commit : option exn }.

(** [db.query(Conversation...).filter(Conversation.id == cid)]: the first
    (primary-key unique) matching row. *)
Definition find_conversation (cid : string) (s : state) : option conversation :=
  find (fun c => String.eqb (conv_id c) cid) (st_conversations s).

Definition default_model_id : string := "meta-llama/Llama-3.3-70B-Instruct-Turbo-Free".

Definition chat_history : string := "collection_chat_history".
Definition collection_kb : string := "collection_kb".
Definition collection_uploads : string := "collection_uploads".

(** [ChatRequestSchema] and [ChatResponseSchema]. *)
Record chat_request := mk_chat_request { req_query : string; req_conversation_id : string }.
Record chat_response := mk_chat_response {
  resp_response : string; resp_conversation_id : string; resp_sources : list source_info }.

(** The per-partition search caps of step 4. *)
Definition search_limit_kb : Z := 4.
Definition search_limit_uploads : Z := 3.
Definition search_limit_history : Z := 3.

(** The three searches of step 4: each exception is caught and the
    partition's result list stays empty. *)
Definition search_kb (env : chat_env) (kb_id : option string) (query_vector : vector)
    : M (list hit) :=
  match kb_id with
  | Some kb =>
      if truthy kb then
        catch (search_points (ce_services env) (mk_search_req collection_kb query_vector
                                    ("kb_id", kb) search_limit_kb))
              (fun _ => ret [])
      else ret []
  | None => ret []
  end.

Definition search_uploads (env : chat_env) (conversation_id : string) (query_vector : vector)
    : M (list hit) :=
  catch (search_points (ce_services env) (mk_search_req collection_uploads query_vector
                              ("conversation_id", conversation_id) search_limit_uploads))
        (fun _ => ret []).

Definition search_history (env : chat_env) (conversation_id : string) (query_vector : vector)
    : M (list hit) :=
  catch (search_points (ce_services env) (mk_search_req chat_history query_vector
                              ("conversation_id", conversation_id)
                              (search_limit_history + 1)))
        (fun _ => ret []).

(** Step 8: embedding and storing the AI message; every exception is
    logged and dropped. *)
Definition store_ai_point (env : chat_env) (conversation_id ai_response_text : string)
    : M unit :=
  catch
    (ai_embedding <- get_embeddings (ce_services env) [ai_response_text] ;;
     match ai_embedding with
     | ai_vector :: _ =>
         add_points (ce_services env) chat_history
           [mk_point (ce_ai_message_id env) ai_vector
              [("conversation_id", conversation_id); ("speaker", "ai");
               ("text", ai_response_text); ("timestamp", ce_timestamp env)]]
     | [] => ret tt
     end)
    (fun _ => ret tt).

(** [_sync_commit_messages] *)
Definition sync_commit_messages (env : chat_env) : M unit :=
  catch (db_commit (ce_commit env))
        (fun e => db_rollback ;; raise (PyException ("Database commit error: " ++ exn_str e))).

(** [user_point] (lines 276-280). *)
Definition user_point (env : chat_env) (request : chat_request) (query_vector : vector) : point :=
  mk_point (ce_user_message_id env) query_vector
    [("conversation_id", req_conversation_id request); ("speaker", "user");
     ("text", req_query request); ("timestamp", ce_timestamp env)].

(** The body of the [try] of [handle_chat_message] (lines 227-490). *)
Definition handle_chat_body (env : chat_env) (request : chat_request) : M chat_response :=
  let conversation_id := req_conversation_id request in
  let user_query := req_query request in
  let user_message_id := ce_user_message_id env in
  let ai_message_id := ce_ai_message_id env in
  (* 1. *)
  kb_id <- gets (fun s => match find_conversation conversation_id s with
                          | Some c => conv_knowledge_base_id c
                          | None => None
                          end) ;;
  exists_ <- gets (fun s => match find_conversation conversation_id s with
                            | Some _ => true | None => false end) ;;
  if negb exists_ then
    raise (HTTPException 404 ("Conversation ID '" ++ conversation_id ++ "' not found."))
  else
  (* 2. *)
  query_embedding <- get_embeddings (ce_services env) [user_query] ;;
  match query_embedding with
  | [query_vector] =>
    (* 3. *)
    let db_user_message := mk_message user_message_id conversation_id "user" user_query in
    let user_point := user_point env request query_vector in
    db_add (RMessage db_user_message) ;;
    catch (add_points (ce_services env) chat_history [user_point])
          (fun q_err => db_rollback ;;
             raise (HTTPException 500
                      ("Failed to store user message vector: " ++ exn_str q_err))) ;;
    (* 4. *)
    kb_search_results <- search_kb env kb_id query_vector ;;
    upload_search_results <- search_uploads env conversation_id query_vector ;;
    history_search_results <- search_history env conversation_id query_vector ;;
    (* 5. *)
    let (context_chunks, sources_for_response) :=
      combine_context user_message_id kb_search_results upload_search_results
        history_search_results in
    let context_string := finalize_context context_chunks in
    (* 6. *)
    let prompt := build_prompt context_string user_query in
    (* 7. *)
    model_id <- gets (fun s => match find_conversation conversation_id s with
                               | Some c => if truthy_opt (conv_model_id c)
                                           then match conv_model_id c with
                                                | Some m => m | None => default_model_id end
                                           else default_model_id
                               | None => default_model_id
                               end) ;;
    ai_response_text <- generate_text (ce_services env) prompt model_id ;;
    (* 8. *)
    db_add (RMessage (mk_message ai_message_id conversation_id "ai" ai_response_text)) ;;
    store_ai_point env conversation_id ai_response_text ;;
    sync_commit_messages env ;;
    (* 9. *)
    ret (mk_chat_response ai_response_text conversation_id sources_for_response)
  | _ => raise (HTTPException 500 "Failed to embed user query.")
  end.

(** [handle_chat_message]: FastAPI's [HTTPException]s are re-raised as
    they are; any other exception rolls the session back and becomes a
    500. *)
Definition handle_chat_message (env : chat_env) (request : chat_request) : M chat_response :=
  catch (handle_chat_body env request)
        (fun e => match e with
                  | HTTPException _ _ => raise e
                  | PyException _ =>
                      db_rollback ;;
                      raise (HTTPException 500
                        ("An internal error occurred during chat processing: " ++ exn_str e))
                  end).

(** One [POST /chat/message] request. *)
Definition chat_turn (env : chat_env) (request : chat_request) (s : state)
    : outcome chat_response * state :=
  run_request (handle_chat_message env request) s.

(* ------------------------------------------------------------------ *)
(** ** [create_conversation] *)

(** [ConversationCreatePayloadSchema] *)
Record create_payload := mk_create_payload {
  cp_knowledge_base_id : option string; cp_model_id : string }.

(** The oracle of one create request: the generated id, what the
    KnowledgeBase existence query raises (if anything) and what the
    commit raises (if anything). *)
Record create_env := mk_create_env {
  cr_conversation_id : string;
  cr_kb_check_error : option exn;
  cr_commit : option exn }.

(** [_sync_check_kb] and its handler (lines 105-115). *)
Definition check_kb (env : create_env) (kb_id_to_store : option string)
    : M (option string) :=
  match kb_id_to_store with
  | Some kb =>
      if truthy kb then
        catch (match cr_kb_check_error env with
               | Some e => raise e
               | None =>
                   kb_record <- gets (fun s => mem kb (st_knowledge_bases s)) ;;
                   ret (if kb_record then kb_id_to_store else None)
               end)
              (fun _ => ret None)
      else ret kb_id_to_store
  | None => ret None
  end.

Definition create_conversation (env : create_env) (payload : option create_payload)
    : M conversation :=
  let conversation_id := cr_conversation_id env in
  let kb_id_to_store :=
    match payload with
    | Some p => if truthy_opt (cp_knowledge_base_id p) then cp_knowledge_base_id p else None
    | None => None
    end in
  let model_id_to_store :=
    match payload with Some p => cp_model_id p | None => default_model_id end in
  kb_id_to_store <- check_kb env kb_id_to_store ;;
  let db_conversation := mk_conversation conversation_id kb_id_to_store (Some model_id_to_store) in
  catch
    (catch (db_add (RConversation db_conversation) ;;
            db_commit (cr_commit env) ;;
            ret db_conversation)
           (fun e => db_rollback ;;
              raise (PyException ("Database error during conversation creation: " ++ exn_str e))))
    (fun e => raise (HTTPException 500 ("Failed to create conversation: " ++ exn_str e))).

(* ------------------------------------------------------------------ *)
(** ** File names *)

(** [filename.split('.')[-1].lower() if '.' in filename else ''] *)
Fixpoint last_dot_segment (s : string) (cur : string) : string :=
  match s with
  | EmptyString => cur
  | String c r =>
      if Ascii.eqb c "."%char then last_dot_segment r "" else last_dot_segment r (cur ++ String c "")
  end.

Definition has_dot (s : string) : bool :=
  existsb (fun c => Ascii.eqb c "."%char) (list_ascii_of_string s).

Definition file_extension (filename : string) : string :=
  if has_dot filename then lower_all (last_dot_segment filename "") else "".

Definition is_image (filename : string) : bool :=
  mem (file_extension filename) ["jpg"; "jpeg"; "png"; "gif"; "bmp"; "webp"].

(* ------------------------------------------------------------------ *)
(** ** [upload_file_to_conversation] *)

(** The oracle of one session-upload request.  [ue_cloudinary_upload] is
    the [secure_url] entry of Cloudinary's result ([None] when absent);
    [ue_process] is what [processor.process_document] returns or raises. *)
Record upload_env := mk_upload_env {
  ue_cloudinary_enabled : bool;
  ue_cloudinary_upload : outcome (option string);
  ue_process : outcome (list string);
  ue_session_doc_id : string;
  ue_point_id : nat -> string;
  ue_system_message_id : string;
  ue_services : services;
  ue_commit : option exn }.

(** The returned JSON object. *)
Record upload_result := mk_upload_result {
  ur_message : string; ur_filename : string; ur_doc_id : option string;
  ur_chunks_added : Z }.

(** [except HTTPException as e: raise e / except Exception as e: raise ...] *)
Definition reraise_http {A} (m : M A) (wrap : exn -> exn) : M A :=
  catch m (fun e => match e with
                    | HTTPException _ _ => raise e
                    | PyException _ => raise (wrap e)
                    end).

Fixpoint upload_points (env : upload_env) (conversation_id filename : string)
    (i : nat) (chunks : list string) (embeddings : list vector) : list point :=
  match chunks, embeddings with
  | chunk :: cs, embedding :: es =>
      mk_point (ue_point_id env i) embedding
        [("doc_id", ue_session_doc_id env); ("source_filename", filename);
         ("chunk_seq_num", Z_to_dec (Z.of_nat i)); ("text", chunk);
         ("conversation_id", conversation_id)]
      :: upload_points env conversation_id filename (S i) cs es
  | _, _ => []
  end.

Definition upload_file_to_conversation (env : upload_env) (conversation_id filename : string)
    : M upload_result :=
  exists_ <- gets (fun s => match find_conversation conversation_id s with
                            | Some _ => true | None => false end) ;;
  if negb exists_ then
    raise (HTTPException 404 ("Conversation ID '" ++ conversation_id ++ "' not found."))
  else if negb (truthy filename) then
    raise (HTTPException 400 "Filename cannot be empty")
  else
  image_url_for_processing <-
    (if is_image filename then
       if negb (ue_cloudinary_enabled env) then
         raise (HTTPException 501 "Image uploads require Cloudinary configuration.")
       else
         catch (match ue_cloudinary_upload env with
                | Ok url =>
                    if truthy_opt url then ret url
                    else raise (HTTPException 500 "Cloudinary upload succeeded but returned no URL.")
                | Raised e => raise e
                end)
               (fun e => raise (HTTPException 502
                                  ("Failed to upload image to Cloudinary: " ++ exn_str e)))
     else ret None) ;;
  chunks <- catch (match ue_process env with Ok c => ret c | Raised e => raise e end)
                  (fun e => raise (HTTPException 500 ("Error processing document: " ++ exn_str e))) ;;
  match chunks with
  | [] =>
      ret (mk_upload_result "File received but no processable content found or generated."
             filename None 0)
  | _ =>
      embeddings <- reraise_http
        (embeddings <- get_embeddings (ue_services env) chunks ;;
         if negb (Nat.eqb (length embeddings) (length chunks)) then
           raise (HTTPException 500 "Mismatch between number of chunks and embeddings received.")
         else ret embeddings)
        (fun e => HTTPException 502 ("Failed to generate embeddings: " ++ exn_str e)) ;;
      let points_to_add := upload_points env conversation_id filename 0 chunks embeddings in
      reraise_http (add_points (ue_services env) collection_uploads points_to_add)
        (fun e => HTTPException 500 ("Failed to store document chunks: " ++ exn_str e)) ;;
      let system_message_text := ("Processed session file: " ++ filename)%string in
      catch
        (catch (db_add (RUploadedDocument
                  (mk_uploaded_document conversation_id (ue_session_doc_id env) filename)) ;;
                db_add (RMessage (mk_message (ue_system_message_id env) conversation_id
                                    "system" system_message_text)) ;;
                db_commit (ue_commit env))
               (fun db_err => db_rollback ;;
                  raise (PyException ("DB Error saving session upload metadata: "
                                      ++ exn_str db_err))))
        (fun e => raise (HTTPException 500
           ("File indexed in vector store, but failed to save metadata to DB: " ++ exn_str e))) ;;
      ret (mk_upload_result "Session file processed and indexed successfully." filename
             (Some (ue_session_doc_id env)) (Z.of_nat (length points_to_add)))
  end.

(* ------------------------------------------------------------------ *)
(** ** [process_kb_upload_task] (knowledge_bases.py) *)

(** The oracle of one background task.  [kt_vision] is what
    [together_svc.get_image_description] returns or raises; [kt_split] is
    [text_splitter.split_text]. *)
Record kb_task_env := mk_kb_task_env {
  kt_cloudinary_bg_enabled : bool;
  kt_cloudinary_upload : outcome (option string);
  kt_together_present : bool;
  kt_vision : outcome (option string);
  kt_split : string -> list string;
  kt_process : outcome (list string);
  kt_point_id : nat -> string;
  kt_services : services;
  kt_commit : option exn }.

Fixpoint kb_points (env : kb_task_env) (kb_id qdrant_doc_id filename : string)
    (i : nat) (chunks : list string) (embeddings : list vector) : list point :=
  match chunks, embeddings with
  | chunk :: cs, emb :: es =>
      mk_point (kt_point_id env i) emb
        [("kb_id", kb_id); ("doc_id", qdrant_doc_id); ("filename", filename);
         ("chunk_seq_num", Z_to_dec (Z.of_nat i)); ("text", chunk)]
      :: kb_points env kb_id qdrant_doc_id filename (S i) cs es
  | _, _ => []
  end.

(** The image path (lines 153-220): returns [(chunks_to_embed, error_msg)];
    a [RuntimeError(error_msg)] is raised as [PyException error_msg]. *)
Definition kb_image_path (env : kb_task_env) (filename : string)
    : M (list string * option string) :=
  if negb (kt_cloudinary_bg_enabled env) then
    raise (PyException "Image detected, but Cloudinary is not configured/enabled.")
  else
    image_url <- catch (match kt_cloudinary_upload env with
                        | Ok url =>
                            match url with
                            | Some u => if truthy u then ret u
                                        else raise (PyException "Cloudinary upload failed (no URL returned).")
                            | None => raise (PyException "Cloudinary upload failed (no URL returned).")
                            end
                        | Raised e => raise e
                        end)
                       (fun upload_err =>
                          raise (PyException ("Cloudinary upload exception: " ++ exn_str upload_err))) ;;
    if negb (kt_together_present env) then
      raise (PyException "Together AI service instance is invalid/None in background task.")
    else
      match kt_vision env with
      | Ok (Some description) =>
          if truthy (py_strip description) then
            let description_text :=
              ("Image Filename: " ++ filename ++ nl ++ "Image Description (Source: "
               ++ image_url ++ "):" ++ nl ++ description)%string in
            match kt_split env description_text with
            | [] => ret ([], Some "Text splitter produced no chunks from description.")
            | chunks => ret (chunks, None)
            end
          else ret ([], Some "Vision API returned empty or invalid description.")
      | Ok None => ret ([], Some "Vision API returned empty or invalid description.")
      | Raised vision_err =>
          ret ([], Some ("Error during Vision API call/processing: " ++ exn_str vision_err)%string)
      end.

(** The non-image path (lines 222-240). *)
Definition kb_document_path (env : kb_task_env) : M (list string * option string) :=
  match kt_process env with
  | Ok [] => ret ([], Some "Document processor returned no content for non-image file.")
  | Ok chunks => ret (chunks, None)
  | Raised proc_err =>
      ret ([], Some ("Error during document processing: " ++ exn_str proc_err)%string)
  end.

(** The [try] block (lines 149-269): returns the final [(status, error_msg)]. *)
Definition kb_task_body (env : kb_task_env) (kb_id qdrant_doc_id filename : string)
    : M (string * option string) :=
  r <- (if is_image filename then kb_image_path env filename else kb_document_path env) ;;
  let (chunks_to_embed, error_msg) := r in
  match chunks_to_embed, error_msg with
  | _ :: _, None =>
      catch
        (embeddings <- get_embeddings (kt_services env) chunks_to_embed ;;
         if negb (Nat.eqb (length embeddings) (length chunks_to_embed)) then
           ret ("error", Some "Embedding count mismatch.")
         else
           add_points (kt_services env) collection_kb
             (kb_points env kb_id qdrant_doc_id filename 0 chunks_to_embed embeddings) ;;
           ret ("completed", None))
        (fun embed_store_err =>
           ret ("error", Some ("Embedding/Storage failed: " ++ exn_str embed_store_err)%string))
  | [], None => ret ("error", Some "No processable content found or generated.")
  | _, Some _ => ret ("error", error_msg)
  end.

Definition set_kb_documents (ds : list kb_document) (s : state) : state :=
  mk_state (st_conversations s) (st_knowledge_bases s) (st_messages s)
    (st_uploaded_documents s) ds (st_pending s) (st_points s) (st_log s).

Definition update_kb_document (kb_doc_id status : string) (error_msg : option string)
    (ds : list kb_document) : list kb_document :=
  map (fun d => if String.eqb (kd_id d) kb_doc_id then mk_kb_document (kd_id d) status error_msg
                else d) ds.

(** The [finally] block (lines 280-301): the status update is committed
    with the task's own session; its errors are logged and dropped. *)
Definition kb_task_finalize (env : kb_task_env) (kb_doc_id status : string)
    (error_msg : option string) : M unit :=
  let error_msg :=
    if String.eqb status "error" then
      match error_msg with
      | None => Some "An unspecified error occurred during processing."
      | Some _ => error_msg
      end
    else error_msg in
  db_doc <- gets (fun s => existsb (fun d => String.eqb (kd_id d) kb_doc_id) (st_kb_documents s)) ;;
  if db_doc then
    match kt_commit env with
    | None => modify (fun s => set_kb_documents
                                 (update_kb_document kb_doc_id status error_msg (st_kb_documents s)) s)
    | Some _ => db_rollback
    end
  else ret tt.

(** [process_kb_upload_task]: every exception escaping the [try] block is
    a [RuntimeError(error_msg)], whose handler keeps [error_msg]. *)
Definition process_kb_upload_task (env : kb_task_env)
    (kb_id kb_doc_id qdrant_doc_id filename : string) : M unit :=
  r <- catch (kb_task_body env kb_id qdrant_doc_id filename)
             (fun rte => ret ("error", Some (exn_str rte))) ;;
  let (status, error_msg) := r in
  kb_task_finalize env kb_doc_id status error_msg.

(** The background task runs on its own session ([db_session_factory()]). *)
Definition kb_task_run (env : kb_task_env) (kb_id kb_doc_id qdrant_doc_id filename : string)
    (s : state) : state :=
  snd (run_request (process_kb_upload_task env kb_id kb_doc_id qdrant_doc_id filename) s).

(** The status of a [KnowledgeBaseDocument] row. *)
Definition kb_document_status (kb_doc_id : string) (s : state) : option string :=
  option_map kd_status (find (fun d => String.eqb (kd_id d) kb_doc_id) (st_kb_documents s)).

(* ------------------------------------------------------------------ *)
(** ** The providers: [EmbeddingService] and [TogetherService] *)

(** What a function decorated with tenacity's [@retry] ends with:
    the value of a successful attempt, or [RetryError] wrapping the last
    attempt's exception ([reraise] is not set). *)
Inductive retry_outcome (A : Type) := RetryOk (a : A) | RetryError (last_attempt : exn).
Arguments RetryOk {A} a.
Arguments RetryError {A} last_attempt.

(** Tenacity's loop: attempt [attempt_number] runs [run attempt_number];
    after a failed attempt, [stop_after_attempt] stops when [left] further
    attempts are not allowed.  The number of the last attempt is returned
    along with the outcome.  The waits do not change the result. *)
Fixpoint tenacity_loop {A} (attempt_number left : nat) (run : nat -> outcome A)
    : retry_outcome A * nat :=
  match run attempt_number with
  | Ok a => (RetryOk a, attempt_number)
  | Raised e =>
      match left with
      | O => (RetryError e, attempt_number)
      | S l => tenacity_loop (S attempt_number) l run
      end
  end.

(** [@retry(stop=stop_after_attempt(n))] *)
Definition retry_stop_after_attempt {A} (n : nat) (run : nat -> outcome A)
    : retry_outcome A * nat :=
  tenacity_loop 1 (n - 1) run.

(** [EmbeddingService.get_embeddings] (embedding_service.py). *)

Definition EXPECTED_EMBEDDING_DIMENSION : nat := 768.

(** The ["error"] field of an error response of the Inference API:
    unreadable (no JSON body, or no dict), a string, or a list of strings. *)
Inductive hf_error_field :=
| HFErrUnreadable
| HFErrString (s : string)
| HFErrList (l : list string).

(** What one request to the Inference API gives: a transport error
    ([httpx.RequestError]), an error status ([httpx.HTTPStatusError]),
    another exception with its message, or the decoded JSON body: [None]
    when it is not a list, and each item [None] when it is not a list. *)
Inductive hf_response :=
| HFRequestError (msg : string)
| HFStatusError (status_code : Z) (error : hf_error_field)
| HFOtherError (msg : string)
| HFBody (result : option (list (option vector))).

(** [not isinstance(result, list) or not all(isinstance(emb, list) ...)] *)
Fixpoint hf_all_lists (items : list (option vector)) : option (list vector) :=
  match items with
  | [] => Some []
  | Some v :: r => option_map (cons v) (hf_all_lists r)
  | None :: _ => None
  end.

(** The [detail] of the [HTTPStatusError] handler. *)
Definition hf_status_detail (status_code : Z) (error : hf_error_field) : string :=
  let detail := ("Embedding API Error (" ++ Z_to_dec status_code ++ ")")%string in
  let with_error (error_detail : string) :=
    if truthy error_detail then (detail ++ ": " ++ error_detail)%string else detail in
  match error with
  | HFErrUnreadable => detail
  | HFErrString s => with_error s
  | HFErrList l => with_error (py_join " " l)
  end.

(** One attempt. *)
Definition hf_attempt (texts : list string) (response : hf_response) : outcome (list vector) :=
  match texts with
  | [] => Ok []
  | _ :: _ =>
      match response with
      | HFRequestError e =>
          Raised (HTTPException 503
                    ("Service Unavailable: Communication error with Embedding API: " ++ e))
      | HFStatusError code error => Raised (HTTPException code (hf_status_detail code error))
      | HFOtherError e =>
          Raised (HTTPException 500 ("Internal error processing embeddings: " ++ e))
      | HFBody body =>
          match match body with Some items => hf_all_lists items | None => None end with
          | None => Raised (HTTPException 500 "Received unexpected embedding format from API.")
          | Some result =>
              if negb (Nat.eqb (length result) (length texts)) then
                Raised (HTTPException 500 "Mismatch between input texts and received embeddings.")
              else
                match result with
                | r0 :: _ =>
                    if negb (Nat.eqb (length r0) EXPECTED_EMBEDDING_DIMENSION) then
                      Raised (HTTPException 500
                        ("Internal configuration error: Embedding dimension mismatch (Expected "
                         ++ Z_to_dec (Z.of_nat EXPECTED_EMBEDDING_DIMENSION) ++ ")."))
                    else Ok result
                | [] => Ok result
                end
          end
      end
  end.

(** [@retry(..., stop=stop_after_attempt(4))]: [responses k] is the
    response to the request of attempt [k]. *)
Definition hf_get_embeddings (texts : list string) (responses : nat -> hf_response)
    : retry_outcome (list vector) * nat :=
  retry_stop_after_attempt 4 (fun k => hf_attempt texts (responses k)).




(* ------------------------------------------------------------------ *)
(** ** [DocumentProcessorService] (document_processor_service.py) *)









(* ------------------------------------------------------------------ *)
(** ** [upload_kb_document] (knowledge_bases.py) *)

(** The oracle of one [POST /knowledge-bases/{kb_id}/documents/upload]
    request: what the KnowledgeBase query raises (if anything), the two
    generated ids, the bytes read from the file (as text; [""] when
    empty), what [db.flush()] raises and what [db.commit()] raises. *)
Record kb_upload_env := mk_kb_upload_env {
  ku_kb_check_error : option exn;
  ku_kb_doc_id : string;
  ku_qdrant_doc_id : string;
  ku_file_content : string;
  ku_flush_error : option exn;
  ku_commit : option exn }.

(** [KBDocumentUploadResponse] *)
Record kb_upload_response := mk_kb_upload_response {
  kr_processed_files : Z;
  kr_failed_files : list string;
  kr_details : list kb_document }.

(** The arguments of the queued [process_kb_upload_task]. *)
Record kb_task_args := mk_kb_task_args {
  ka_kb_id : string; ka_kb_doc_id : string; ka_qdrant_doc_id : string; ka_filename : string }.

(** [upload_kb_document]; it returns the response and the queued
    background tasks, which run only once the response is sent. *)
Definition upload_kb_document (env : kb_upload_env) (kb_id filename : string)
    : M (kb_upload_response * list kb_task_args) :=
  catch (match ku_kb_check_error env with
         | Some e => raise e
         | None =>
             found <- gets (fun s => mem kb_id (st_knowledge_bases s)) ;;
             if negb found then raise (HTTPException 404 ("KB ID '" ++ kb_id ++ "' not found."))
             else ret tt
         end)
        (fun e => raise (HTTPException 500 ("DB error checking KB: " ++ exn_str e))) ;;
  let '(processed_count, failed_files_list, processed_details, tasks) :=
    if negb (truthy filename) then (0%Z, ["(Unnamed File)"], [], [])
    else
      let db_kb_doc := mk_kb_document (ku_kb_doc_id env) "processing" None in
      if negb (truthy (ku_file_content env)) then (0%Z, [filename], [], [])
      else
        match ku_flush_error env with
        | Some _ => (0%Z, [filename], [], [])
        | None =>
            (1%Z, [], [db_kb_doc],
             [mk_kb_task_args kb_id (ku_kb_doc_id env) (ku_qdrant_doc_id env) filename])
        end in
  (if (0 <? processed_count)%Z then
     match ku_commit env with
     | Some _ => db_rollback ;; raise (HTTPException 500 "Failed save metadata.")
     | None => modify (fun s => set_kb_documents (st_kb_documents s ++ processed_details) s)
     end
   else ret tt) ;;
  ret (mk_kb_upload_response processed_count failed_files_list processed_details, tasks).

(* ------------------------------------------------------------------ *)
(** ** [QdrantService.ensure_collections_exist] (qdrant_service.py) *)

(** The keys of [collections_to_ensure]. *)
Definition collections_to_ensure : list string :=
  [collection_kb; collection_uploads; chat_history].

(** The loop over [collections_to_ensure]; a failing [recreate_collection]
    ends it (the exception is caught and logged); returns the collections
    created, in order. *)
Fixpoint ensure_loop (existing_collections : list string)
    (recreate_collection : string -> option exn) (names : list string) : list string :=
  match names with
  | [] => []
  | name :: rest =>
      if mem name existing_collections then ensure_loop existing_collections recreate_collection rest
      else match recreate_collection name with
           | None => name :: ensure_loop existing_collections recreate_collection rest
           | Some _ => []
           end
  end.

(** [get_collections] fails or lists the collections on the server; the
    result is the server's collections afterwards. *)
Definition ensure_collections_exist (get_collections_error : option exn)
    (recreate_collection : string -> option exn) (collections : list string) : list string :=
  match get_collections_error with
  | Some _ => collections
  | None => collections ++ ensure_loop collections recreate_collection collections_to_ensure
  end.

(* ------------------------------------------------------------------ *)
(** ** [create_knowledge_base] (knowledge_bases.py) *)



(* ------------------------------------------------------------------ *)
(** ** Auxiliary definitions for the proofs *)

(** The hits of the three searches, tagged with their partition, in the
    order the three loops process them. *)
Definition tag (p : partition) (hs : list hit) : list (partition * hit) :=
  map (fun h => (p, h)) hs.

Definition tagged_hits (kb up hist : list hit) : list (partition * hit) :=
  tag PKB kb ++ tag PUpload up ++ tag PHistory hist.

(** The blocks (zero or one) the loop of partition [p] appends for hit [h]
    when no block with the id of [h] was appended before: the loop body
    itself, run from an empty accumulator. *)
Definition block_of (user_message_id : string) (ph : partition * hit) : list block :=
  let (p, h) := ph in
  match p with
  | PKB => acc_chunks (kb_step (mk_acc [] [] []) h)
  | PUpload => acc_chunks (upload_step (mk_acc [] [] []) h)
  | PHistory => fst (history_step user_message_id ([], []) h)
  end.

(** The three loops as one loop over [tagged_hits], with
    [processed_qdrant_ids] being the ids of the blocks appended so far. *)
Definition gstep (user_message_id : string) (c : list block) (ph : partition * hit)
    : list block :=
  if mem (hit_id (snd ph)) (map blk_id c) then c else c ++ block_of user_message_id ph.

(** The blocks of the first hit with id [x] that yields a block. *)
Fixpoint first_blocks (user_message_id x : string) (l : list (partition * hit))
    : list block :=
  match l with
  | [] => []
  | ph :: r =>
      if String.eqb (hit_id (snd ph)) x then
        match block_of user_message_id ph with
        | [] => first_blocks user_message_id x r
        | bs => bs
        end
      else first_blocks user_message_id x r
  end.

Definition blocks_with_id (x : string) (c : list block) : list block :=
  filter (fun b => String.eqb (blk_id b) x) c.

(** A computation [m] keeps the relation [R] between the state before and
    the state after, whatever its outcome. *)
Definition preserves (R : state -> state -> Prop) {A} (m : M A) : Prop :=
  forall s, R s (snd (m s)).

(** A computation that always raises, keeping [R]. *)
Definition raises_rel (R : state -> state -> Prop) {A} (m : M A) : Prop :=
  forall s, (exists e, fst (m s) = Raised e) /\ R s (snd (m s)).

(** A computation that never raises. *)
Definition no_raise {A} (m : M A) : Prop :=
  forall s, exists a, fst (m s) = Ok a.

(** Two computations with the same run from every state. *)
Definition Mequiv {A} (m1 m2 : M A) : Prop := forall s, m1 s = m2 s.

(** The committed [Message] rows are unchanged. *)
Definition same_messages (s s' : state) : Prop := st_messages s' = st_messages s.

(** A call to the search service is issued with the per-collection cap. *)
Definition search_capped (c : call) : Prop :=
  match c with
  | CSearch r =>
      (sr_collection r = collection_kb -> sr_limit r = 4%Z) /\
      (sr_collection r = collection_uploads -> sr_limit r = 3%Z) /\
      (sr_collection r = chat_history -> sr_limit r = 4%Z)
  | _ => True
  end.

(** The log only grows, by calls that respect the caps. *)
Definition log_capped (s s' : state) : Prop :=
  exists l, st_log s' = st_log s ++ l /\ Forall search_capped l.

Definition with_services (env : chat_env) (sv : services) : chat_env :=
  mk_chat_env (ce_user_message_id env) (ce_ai_message_id env) (ce_timestamp env) sv
    (ce_commit env).

(** The services, except that every search in [collection] returns no hit. *)
Definition search_empty (sv : services) (collection : string) : services :=
  mk_services (sv_embed sv) (sv_upsert_ok sv)
    (fun r => if String.eqb (sr_collection r) collection then Some [] else sv_search sv r)
    (sv_generate sv).

Definition same_store (s s' : state) : Prop :=
  st_conversations s' = st_conversations s /\ st_knowledge_bases s' = st_knowledge_bases s /\
  st_messages s' = st_messages s /\ st_uploaded_documents s' = st_uploaded_documents s /\
  st_kb_documents s' = st_kb_documents s /\ st_points s' = st_points s /\ st_log s' = st_log s.

(** The database tables (not the session, the vector store or the log). *)
Definition same_tables (s s' : state) : Prop :=
  st_conversations s' = st_conversations s /\ st_knowledge_bases s' = st_knowledge_bases s /\
  st_messages s' = st_messages s /\ st_uploaded_documents s' = st_uploaded_documents s /\
  st_kb_documents s' = st_kb_documents s.

(** Every result of [m] that is returned satisfies [P]. *)
Definition ok_sat {A} (P : A -> Prop) (m : M A) : Prop :=
  forall s a, fst (m s) = Ok a -> P a.

(** The final status of the [try] block. *)
Definition task_status_ok (r : string * option string) : Prop :=
  (fst r = "completed" /\ snd r = None) \/ fst r = "error".

(** A step that returns and leaves the database and the session alone. *)
Definition db_silent {A} (m : M A) : Prop :=
  forall s, exists a s', m s = (Ok a, s') /\ same_tables s s' /\ st_pending s' = st_pending s.


(** [x1 + "\n" + x2 + "\n" + ...] *)
Fixpoint lines_text (xs : list string) : string :=
  match xs with
  | [] => ""
  | x :: r => (x ++ String "010"%char (lines_text r))%string
  end.


(* ================================================================== *)
(** * Proofs *)

(* ------------------------------------------------------------------ *)
(** ** Context assembly *)

Module Context.

Local Open Scope nat_scope.

Lemma mem_app (x : string) (l1 l2 : list string) :
  mem x (l1 ++ l2) = mem x l1 || mem x l2.
Proof. unfold mem. apply existsb_app. Qed.

Lemma mem_single (x y : string) : mem x [y] = String.eqb x y.
Proof. unfold mem. simpl. apply orb_false_r. Qed.

Lemma prefix_app (s1 s2 : string) : String.prefix s1 (s1 ++ s2) = true.
Proof.
  induction s1 as [|c s1 IH]; [destruct s2; reflexivity|]. simpl.
  destruct (ascii_dec c c) as [_|n]; [exact IH | contradiction n; reflexivity].
Qed.

(** The loop bodies of the KB and upload loops, on any accumulator. *)
Definition acc_step_spec (umid : string) (p : partition) (step : acc -> hit -> acc) : Prop :=
  forall a h,
    acc_chunks (step a h) =
      (if mem (hit_id h) (acc_seen a) then acc_chunks a
       else acc_chunks a ++ block_of umid (p, h)) /\
    acc_seen (step a h) =
      (if mem (hit_id h) (acc_seen a) then acc_seen a
       else acc_seen a ++ map blk_id (block_of umid (p, h))).

Lemma kb_step_spec umid : acc_step_spec umid PKB kb_step.
Proof.
  intros a h. unfold kb_step, block_of. cbn.
  destruct (mem (hit_id h) (acc_seen a)); [split; reflexivity|].
  destruct (pget (hit_payload h) "text") as [t|]; [destruct (truthy t)|];
    cbn; rewrite ?app_nil_r; split; reflexivity.
Qed.

Lemma upload_step_spec umid : acc_step_spec umid PUpload upload_step.
Proof.
  intros a h. unfold upload_step, block_of. cbn.
  destruct (mem (hit_id h) (acc_seen a)); [split; reflexivity|].
  destruct (pget (hit_payload h) "text") as [t|]; [destruct (truthy t)|];
    cbn; rewrite ?app_nil_r; split; reflexivity.
Qed.

Lemma history_step_spec umid temp seen h :
  history_step umid (temp, seen) h =
    if mem (hit_id h) seen then (temp, seen)
    else (temp ++ block_of umid (PHistory, h),
          seen ++ map blk_id (block_of umid (PHistory, h))).
Proof.
  unfold history_step, block_of. cbn.
  destruct (mem (hit_id h) seen); [reflexivity|]. cbn.
  destruct (String.eqb (hit_id h) umid); cbn; [rewrite !app_nil_r; reflexivity|].
  destruct (pget (hit_payload h) "text") as [t|]; [destruct (truthy t)|];
    cbn; rewrite ?app_nil_r; reflexivity.
Qed.

Lemma acc_fold umid p step :
  acc_step_spec umid p step ->
  forall l a, acc_seen a = map blk_id (acc_chunks a) ->
  acc_chunks (fold_left step l a) = fold_left (gstep umid) (tag p l) (acc_chunks a) /\
  acc_seen (fold_left step l a) = map blk_id (acc_chunks (fold_left step l a)).
Proof.
  intros Hs l. induction l as [|h l IH]; intros a Ha; [split; [reflexivity | exact Ha]|].
  cbn [fold_left tag map]. destruct (Hs a h) as [Hc Hn].
  assert (Hinv : acc_seen (step a h) = map blk_id (acc_chunks (step a h))).
  { rewrite Hc, Hn. destruct (mem (hit_id h) (acc_seen a)); [exact Ha|].
    rewrite map_app, Ha. reflexivity. }
  destruct (IH _ Hinv) as [IH1 IH2]. split; [|exact IH2].
  rewrite IH1, Hc. f_equal. unfold gstep. cbn [snd]. rewrite <- Ha. reflexivity.
Qed.

Lemma history_fold umid l : forall c temp seen,
  seen = map blk_id (c ++ temp) ->
  c ++ fst (fold_left (history_step umid) l (temp, seen)) =
  fold_left (gstep umid) (tag PHistory l) (c ++ temp).
Proof.
  induction l as [|h l IH]; intros c temp seen Hs; [reflexivity|].
  cbn [fold_left tag map]. rewrite history_step_spec.
  change (fold_left (gstep umid) (map (fun h0 => (PHistory, h0)) l)
            (gstep umid (c ++ temp) (PHistory, h)))
    with (fold_left (gstep umid) (tag PHistory l) (gstep umid (c ++ temp) (PHistory, h))).
  unfold gstep at 2. cbn [snd]. rewrite <- Hs.
  destruct (mem (hit_id h) seen); [apply IH; exact Hs|].
  rewrite IH.
  - rewrite app_assoc. reflexivity.
  - rewrite app_assoc, map_app, <- Hs. reflexivity.
Qed.

(** The context chunks are the blocks of the single loop [gstep] over
    the tagged hits. *)
Lemma combine_chunks umid kb up hist :
  fst (combine_context umid kb up hist) =
  fold_left (gstep umid) (tagged_hits kb up hist) [].
Proof.
  unfold combine_context, tagged_hits.
  destruct (acc_fold umid PKB kb_step (kb_step_spec umid) kb (mk_acc [] [] []) eq_refl)
    as [K1 K2].
  set (a1 := fold_left kb_step kb (mk_acc [] [] [])) in *.
  destruct (acc_fold umid PUpload upload_step (upload_step_spec umid) up a1 K2)
    as [U1 U2].
  set (a2 := fold_left upload_step up a1) in *.
  pose proof (history_fold umid hist (acc_chunks a2) [] (acc_seen a2)) as H.
  rewrite app_nil_r in H. specialize (H U2).
  destruct (fold_left (history_step umid) hist ([], acc_seen a2)) as [temp seen].
  cbn [fst] in *. rewrite H, U1, K1, !fold_left_app. reflexivity.
Qed.

Lemma block_of_shape umid ph :
  block_of umid ph = [] \/
  exists b, block_of umid ph = [b] /\ blk_id b = hit_id (snd ph) /\ blk_part b = fst ph.
Proof.
  destruct ph as [p h]. destruct p; unfold block_of; cbn;
    [| | destruct (String.eqb (hit_id h) umid); cbn; [left; reflexivity|]];
    (destruct (pget (hit_payload h) "text") as [t|]; [destruct (truthy t)|]);
    cbn; eauto.
Qed.

Lemma first_blocks_length umid x l : length (first_blocks umid x l) <= 1.
Proof.
  induction l as [|ph l IH]; cbn; [lia|].
  destruct (String.eqb (hit_id (snd ph)) x); [|exact IH].
  destruct (block_of_shape umid ph) as [E|[b [E _]]]; rewrite E; [exact IH | cbn; lia].
Qed.

(** The blocks carrying the id [x]. *)
Lemma blocks_with_id_fold umid x l : forall c,
  blocks_with_id x (fold_left (gstep umid) l c) =
  blocks_with_id x c ++ (if mem x (map blk_id c) then [] else first_blocks umid x l).
Proof.
  induction l as [|ph l IH]; intros c; cbn [fold_left].
  - destruct (mem x (map blk_id c)); cbn; rewrite app_nil_r; reflexivity.
  - rewrite IH. unfold gstep. cbn [first_blocks].
    destruct (String.eqb (hit_id (snd ph)) x) eqn:Ex.
    + apply String.eqb_eq in Ex. rewrite Ex.
      destruct (mem x (map blk_id c)) eqn:Em; [rewrite Em; reflexivity|].
      destruct (block_of_shape umid ph) as [E|[b [E [Eb _]]]]; rewrite E.
      * rewrite app_nil_r, Em. reflexivity.
      * unfold blocks_with_id. rewrite map_app, mem_app, Em, filter_app. cbn.
        rewrite Eb, Ex, String.eqb_refl. cbn. rewrite app_nil_r. reflexivity.
    + destruct (mem (hit_id (snd ph)) (map blk_id c)) eqn:Em; [reflexivity|].
      destruct (block_of_shape umid ph) as [E|[b [E [Eb _]]]]; rewrite E;
        [rewrite app_nil_r; reflexivity|].
      unfold blocks_with_id. rewrite map_app, mem_app, filter_app. cbn.
      rewrite Eb, Ex, String.eqb_sym, Ex, orb_false_r, app_nil_r.
      reflexivity.
Qed.

Lemma first_blocks_nonempty umid l ph :
  In ph l -> block_of umid ph <> [] -> first_blocks umid (hit_id (snd ph)) l <> [].
Proof.
  induction l as [|ph' l IH]; intros Hin Hb; [destruct Hin|].
  cbn. destruct (String.eqb (hit_id (snd ph')) (hit_id (snd ph))) eqn:E.
  - destruct (block_of umid ph') eqn:E'; [|discriminate].
    destruct Hin as [<-|Hin]; [contradiction|]. exact (IH Hin Hb).
  - destruct Hin as [<-|Hin]; [rewrite String.eqb_refl in E; discriminate|].
    exact (IH Hin Hb).
Qed.

Lemma fold_extends umid (P : block -> Prop) l : forall c,
  (forall ph, In ph l -> Forall P (block_of umid ph)) ->
  exists d, fold_left (gstep umid) l c = c ++ d /\ Forall P d.
Proof.
  induction l as [|ph l IH]; intros c Hl; cbn [fold_left].
  - exists []. rewrite app_nil_r. split; [reflexivity | constructor].
  - destruct (IH (gstep umid c ph)) as [d [Ed Pd]]; [intros; apply Hl; right; assumption|].
    rewrite Ed. unfold gstep.
    destruct (mem (hit_id (snd ph)) (map blk_id c)).
    + exists d. split; [reflexivity | exact Pd].
    + exists (block_of umid ph ++ d). rewrite app_assoc. split; [reflexivity|].
      apply Forall_app. split; [apply Hl; left; reflexivity | exact Pd].
Qed.

Lemma fold_forall umid (P : block -> Prop) l : forall c,
  (forall ph, Forall P (block_of umid ph)) ->
  Forall P c -> Forall P (fold_left (gstep umid) l c).
Proof.
  induction l as [|ph l IH]; intros c Hb Hc; cbn [fold_left]; [exact Hc|].
  apply IH; [exact Hb|]. unfold gstep.
  destruct (mem (hit_id (snd ph)) (map blk_id c)); [exact Hc|].
  apply Forall_app. split; [exact Hc | apply Hb].
Qed.

Lemma block_of_part umid ph : Forall (fun b => blk_part b = fst ph) (block_of umid ph).
Proof.
  destruct (block_of_shape umid ph) as [E|[b [E [_ Ep]]]]; rewrite E;
    constructor; [exact Ep | constructor].
Qed.

Lemma block_of_kb_label umid h :
  Forall (fun b => blk_part b = PKB /\
             String.prefix "Context from Knowledge Base document '" (blk_text b) = true)
    (block_of umid (PKB, h)).
Proof.
  unfold block_of, kb_step. cbn [acc_chunks acc_seen mem existsb].
  destruct (pget (hit_payload h) "text") as [t|]; [destruct (truthy t)|];
    cbn [acc_chunks app]; repeat constructor.
  apply prefix_app.
Qed.

Lemma block_of_history_self umid ph :
  Forall (fun b => blk_part b = PHistory -> blk_id b <> umid) (block_of umid ph).
Proof.
  destruct ph as [p h]. destruct p.
  - eapply Forall_impl; [|apply (block_of_part umid (PKB, h))].
    intros b Hb Hh. cbn in Hb. congruence.
  - eapply Forall_impl; [|apply (block_of_part umid (PUpload, h))].
    intros b Hb Hh. cbn in Hb. congruence.
  - unfold block_of, history_step. cbn.
    destruct (String.eqb (hit_id h) umid) eqn:E; cbn; [constructor|].
    destruct (pget (hit_payload h) "text") as [t|]; [destruct (truthy t)|];
      cbn; repeat constructor.
    intros _ Hid. cbn in Hid. rewrite Hid, String.eqb_refl in E. discriminate.
Qed.

Lemma py_strip_empty : py_strip "" = "".
Proof. reflexivity. Qed.

End Context.

Section ContextClaims.
Import Context.

Definition kb_label_ok (b : block) : Prop :=
  blk_part b = PKB /\
  String.prefix "Context from Knowledge Base document '" (blk_text b) = true.

(** C3: when the KB search returned at least one hit with non-empty
    payload text, the context chunks start with at least one block of the
    KB loop (labelled "Context from Knowledge Base document '"), followed
    by the blocks of the upload loop, followed by the history lines. *)
Theorem context_priority_order (user_message_id : string) (kb up hist : list hit)
  (Hkb : exists h, In h kb /\ truthy_opt (pget (hit_payload h) "text") = true) :
  exists K U H,
    fst (combine_context user_message_id kb up hist) = K ++ U ++ H /\
    K <> [] /\
    Forall kb_label_ok K /\
    Forall (fun b => blk_part b = PUpload) U /\
    Forall (fun b => blk_part b = PHistory) H.
Proof.
  rewrite combine_chunks. unfold tagged_hits. rewrite !fold_left_app.
  destruct (fold_extends user_message_id kb_label_ok (tag PKB kb) [])
    as [K [EK PK]].
  { intros ph Hin. unfold tag in Hin. apply in_map_iff in Hin as [h [<- _]].
    apply block_of_kb_label. }
  rewrite EK. cbn [app].
  destruct (fold_extends user_message_id (fun b => blk_part b = PUpload) (tag PUpload up) K)
    as [U [EU PU]].
  { intros ph Hin. unfold tag in Hin. apply in_map_iff in Hin as [h [<- _]].
    apply (block_of_part user_message_id (PUpload, h)). }
  rewrite EU.
  destruct (fold_extends user_message_id (fun b => blk_part b = PHistory)
              (tag PHistory hist) (K ++ U)) as [H [EH PH]].
  { intros ph Hin. unfold tag in Hin. apply in_map_iff in Hin as [h [<- _]].
    apply (block_of_part user_message_id (PHistory, h)). }
  rewrite EH. exists K, U, H. repeat split; try assumption.
  - rewrite app_assoc. reflexivity.
  - destruct Hkb as [h [Hin Ht]].
    pose proof (blocks_with_id_fold user_message_id (hit_id h) (tag PKB kb) []) as Hb.
    rewrite EK in Hb. cbn [app mem existsb map] in Hb.
    assert (Hne : first_blocks user_message_id (hit_id (snd (PKB, h))) (tag PKB kb) <> []).
    { apply first_blocks_nonempty.
      - unfold tag. apply in_map_iff. exists h. split; [reflexivity | exact Hin].
      - unfold block_of, kb_step. cbn [acc_chunks acc_seen mem existsb].
        destruct (pget (hit_payload h) "text") as [t|]; [|discriminate].
        cbn in Ht. rewrite Ht. discriminate. }
    intros ->. cbn in Hb. cbn [snd] in Hne. rewrite <- Hb in Hne. apply Hne. reflexivity.
Qed.

(** C4 (as stated): an id returned by the KB and the upload searches whose
    hits carry no text contributes no block at all, and when only the
    upload hit carries text the block comes from the upload partition, not
    from the KB partition processed first. *)
Lemma dedup_counterexample :
  blocks_with_id "x" (fst (combine_context "u" [mk_hit "x" 1 []] [mk_hit "x" 1 []] [])) = [] /\
  map blk_part
    (blocks_with_id "x"
       (fst (combine_context "u" [mk_hit "x" 1 []] [mk_hit "x" 1 [("text", "t")]] [])))
  = [PUpload].
Proof. split; reflexivity. Qed.

(** C4 (amended): the blocks carrying the id [x] are exactly the block of
    the first hit with id [x], in the order KB hits, upload hits, history
    hits, whose loop appends a block (non-empty payload text and, for a
    history hit, not the current user message); so an id contributes at
    most one block, and none when no such hit exists. *)
Theorem dedup_first_usable_hit (user_message_id x : string) (kb up hist : list hit) :
  blocks_with_id x (fst (combine_context user_message_id kb up hist)) =
    first_blocks user_message_id x (tagged_hits kb up hist) /\
  (length (blocks_with_id x (fst (combine_context user_message_id kb up hist))) <= 1)%nat.
Proof.
  rewrite combine_chunks, blocks_with_id_fold. cbn [app mem existsb map blocks_with_id filter].
  split; [reflexivity | apply first_blocks_length].
Qed.

(** C5: no history line of the context chunks carries the id of the user
    message stored in the current turn. *)
Theorem history_self_exclusion (user_message_id : string) (kb up hist : list hit) :
  Forall (fun b => blk_part b = PHistory -> blk_id b <> user_message_id)
    (fst (combine_context user_message_id kb up hist)).
Proof.
  rewrite combine_chunks. apply fold_forall; [apply block_of_history_self | constructor].
Qed.

(** C6: when the joined context is empty or whitespace-only (in
    particular when no loop appended a block), the context given to the
    prompt is the canned sentence; it is never the empty string. *)
Theorem empty_context_fallback (context_chunks : list block) :
  (py_strip (py_join context_sep (map blk_text context_chunks)) = "" ->
   finalize_context context_chunks = no_context_sentence) /\
  (context_chunks = [] -> finalize_context context_chunks = no_context_sentence) /\
  finalize_context context_chunks <> "".
Proof.
  unfold finalize_context.
  set (cs := py_join context_sep (map blk_text context_chunks)).
  split; [intros H; rewrite H; reflexivity|].
  split; [intros ->; reflexivity|].
  destruct (truthy (py_strip cs)) eqn:E; cbn; [|discriminate].
  intros Hcs. rewrite Hcs in E. discriminate.
Qed.

End ContextClaims.

(* ------------------------------------------------------------------ *)
(** ** Reasoning about computations *)

Module Effects.

Section Preserve.
Context {R : state -> state -> Prop} `{PreOrder state R}.

Lemma pres_ret {A} (a : A) : preserves R (ret a).
Proof. intros s. cbn. reflexivity. Qed.

Lemma pres_raise {A} (e : exn) : preserves R (@raise A e).
Proof. intros s. cbn. reflexivity. Qed.

Lemma pres_gets {A} (f : state -> A) : preserves R (gets f).
Proof. intros s. cbn. reflexivity. Qed.

Lemma pres_modify (f : state -> state) : (forall s, R s (f s)) -> preserves R (modify f).
Proof. intros Hf s. exact (Hf s). Qed.

Lemma pres_bind {A B} (m : M A) (k : A -> M B) :
  preserves R m -> (forall a, preserves R (k a)) -> preserves R (bind m k).
Proof.
  intros Hm Hk s. specialize (Hm s). unfold bind.
  destruct (m s) as [[a|e] s'] eqn:E; cbn in *; [|exact Hm].
  transitivity s'; [exact Hm | apply Hk].
Qed.

Lemma pres_catch {A} (m : M A) (h : exn -> M A) :
  preserves R m -> (forall e, preserves R (h e)) -> preserves R (catch m h).
Proof.
  intros Hm Hh s. specialize (Hm s). unfold catch.
  destruct (m s) as [[a|e] s'] eqn:E; cbn in *; [exact Hm|].
  transitivity s'; [exact Hm | apply Hh].
Qed.

Lemma raises_raise {A} (e : exn) : raises_rel R (@raise A e).
Proof. intros s. split; [exists e; reflexivity | cbn; reflexivity]. Qed.

Lemma raises_bind_l {A B} (m : M A) (k : A -> M B) :
  raises_rel R m -> raises_rel R (bind m k).
Proof.
  intros Hm s. specialize (Hm s). unfold bind.
  destruct (m s) as [[a|e] s'] eqn:E; cbn in *; destruct Hm as [[e' He] Hr];
    [discriminate|]. split; [exists e; reflexivity | exact Hr].
Qed.

Lemma raises_bind_r {A B} (m : M A) (k : A -> M B) :
  preserves R m -> (forall a, raises_rel R (k a)) -> raises_rel R (bind m k).
Proof.
  intros Hm Hk s. specialize (Hm s). unfold bind.
  destruct (m s) as [[a|e] s'] eqn:E; cbn in *.
  - destruct (Hk a s') as [He Hr]. split; [exact He | transitivity s'; assumption].
  - split; [exists e; reflexivity | exact Hm].
Qed.

Lemma raises_catch {A} (m : M A) (h : exn -> M A) :
  raises_rel R m -> (forall e, raises_rel R (h e)) -> raises_rel R (catch m h).
Proof.
  intros Hm Hh s. specialize (Hm s). unfold catch.
  destruct (m s) as [[a|e] s'] eqn:E; cbn in *; destruct Hm as [[e' He] Hr];
    [discriminate|].
  destruct (Hh e s') as [He' Hr']. split; [exact He' | transitivity s'; assumption].
Qed.

End Preserve.

Lemma noraise_ret {A} (a : A) : no_raise (ret a).
Proof. intros s. exists a. reflexivity. Qed.

Lemma noraise_gets {A} (f : state -> A) : no_raise (gets f).
Proof. intros s. exists (f s). reflexivity. Qed.

Lemma noraise_modify (f : state -> state) : no_raise (modify f).
Proof. intros s. exists tt. reflexivity. Qed.

Lemma noraise_bind {A B} (m : M A) (k : A -> M B) :
  no_raise m -> (forall a, no_raise (k a)) -> no_raise (bind m k).
Proof.
  intros Hm Hk s. destruct (Hm s) as [a Ha]. unfold bind.
  destruct (m s) as [o s'] eqn:E. cbn in Ha. subst o. apply Hk.
Qed.

(** A first step whose result is known. *)
Lemma noraise_bind_det {A B} (m : M A) (a : A) (k : A -> M B) :
  (forall s, fst (m s) = Ok a) -> no_raise (k a) -> no_raise (bind m k).
Proof.
  intros Hm Hk s. unfold bind. specialize (Hm s).
  destruct (m s) as [o s'] eqn:E. cbn in Hm. subst o. apply Hk.
Qed.

Lemma noraise_catch_handler {A} (m : M A) (h : exn -> M A) :
  (forall e, no_raise (h e)) -> no_raise (catch m h).
Proof.
  intros Hh s. unfold catch. destruct (m s) as [[a|e] s'];
    [exists a; reflexivity | apply Hh].
Qed.

Lemma noraise_catch_body {A} (m : M A) (h : exn -> M A) :
  no_raise m -> no_raise (catch m h).
Proof.
  intros Hm s. destruct (Hm s) as [a Ha]. unfold catch.
  destruct (m s) as [o s'] eqn:E. cbn in Ha. subst o. exists a. reflexivity.
Qed.

Lemma equiv_refl {A} (m : M A) : Mequiv m m.
Proof. intros s. reflexivity. Qed.

Lemma equiv_bind {A B} (m1 m2 : M A) (k1 k2 : A -> M B) :
  Mequiv m1 m2 -> (forall a, Mequiv (k1 a) (k2 a)) -> Mequiv (bind m1 k1) (bind m2 k2).
Proof.
  intros Hm Hk s. unfold bind. rewrite (Hm s).
  destruct (m2 s) as [[a|e] s']; [apply Hk | reflexivity].
Qed.

Lemma equiv_catch {A} (m1 m2 : M A) (h1 h2 : exn -> M A) :
  Mequiv m1 m2 -> (forall e, Mequiv (h1 e) (h2 e)) -> Mequiv (catch m1 h1) (catch m2 h2).
Proof.
  intros Hm Hh s. unfold catch. rewrite (Hm s).
  destruct (m2 s) as [[a|e] s']; [reflexivity | apply Hh].
Qed.

#[export] Instance same_messages_preorder : PreOrder same_messages.
Proof.
  split; [intros s; reflexivity | intros s1 s2 s3 H12 H23; unfold same_messages in *; congruence].
Qed.

#[export] Instance log_capped_preorder : PreOrder log_capped.
Proof.
  split.
  - intros s. exists []. rewrite app_nil_r. split; [reflexivity | constructor].
  - intros s1 s2 s3 [l1 [E1 F1]] [l2 [E2 F2]]. exists (l1 ++ l2).
    rewrite E2, E1, app_assoc. split; [reflexivity | apply Forall_app; split; assumption].
Qed.

Lemma apply_row_log rs : forall s, st_log (fold_left apply_row rs s) = st_log s.
Proof.
  induction rs as [|r rs IH]; intros s; [reflexivity|].
  cbn [fold_left]. rewrite IH. destruct r; reflexivity.
Qed.

(** Walking a computation: the components of the chat turn are unfolded
    down to [ret], [raise], [gets], [modify], [bind] and [catch]. *)
Ltac unfold_components :=
  unfold handle_chat_message, handle_chat_body, search_kb, search_uploads, search_history,
    store_ai_point, sync_commit_messages, get_embeddings, add_points, search_points,
    db_add, db_rollback, db_commit, log_call, store_points.

Ltac walk_pres leaf :=
  repeat match goal with
  | |- preserves _ (bind _ _) => apply pres_bind; [ | intros ? ]
  | |- preserves _ (catch _ _) => apply pres_catch; [ | intros ? ]
  | |- preserves _ (ret _) => apply pres_ret
  | |- preserves _ (raise _) => apply pres_raise
  | |- preserves _ (gets _) => apply pres_gets
  | |- preserves _ (modify _) => apply pres_modify; intros ?; leaf
  | |- preserves _ (generate_text _ _ _) => unfold generate_text
  | |- preserves _ (match ?x with _ => _ end) => destruct x
  | |- preserves _ _ => progress (cbv beta zeta; unfold_components)
  end.

Ltac leaf_messages := reflexivity.

Ltac leaf_log :=
  first
    [ exists []; split; [cbn; rewrite ?apply_row_log, app_nil_r; reflexivity | constructor]
    | eexists; split;
        [ cbn; reflexivity
        | repeat constructor; cbn; intros Hc; try discriminate Hc; reflexivity ] ].

End Effects.

Module ChatTurn.
Import Effects.

Lemma handle_log_capped env req : preserves log_capped (handle_chat_message env req).
Proof. unfold_components. walk_pres leaf_log. Qed.

Lemma run_request_log {A} (m : M A) s :
  preserves log_capped m -> log_capped s (snd (run_request m s)).
Proof.
  intros Hm. unfold run_request. specialize (Hm (set_pending [] s)).
  destruct (m (set_pending [] s)) as [o s'] eqn:E. cbn in *. exact Hm.
Qed.

Lemma run_request_raises {A} (m : M A) s :
  raises_rel same_messages m ->
  (exists e, fst (run_request m s) = Raised e) /\
  st_messages (snd (run_request m s)) = st_messages s.
Proof.
  intros Hm. unfold run_request. specialize (Hm (set_pending [] s)).
  destruct (m (set_pending [] s)) as [o s'] eqn:E. cbn in *. exact Hm.
Qed.

Lemma generate_raises sv prompt model e :
  sv_generate sv prompt model = Raised e ->
  raises_rel same_messages (generate_text sv prompt model).
Proof.
  intros He. unfold generate_text. apply raises_bind_r.
  - apply pres_modify. intros s. reflexivity.
  - intros _. rewrite He. apply raises_raise.
Qed.

Lemma upsert_raises sv collection p :
  sv_upsert_ok sv collection [p] = false ->
  raises_rel same_messages (add_points sv collection [p]).
Proof.
  intros Hf. unfold add_points. apply raises_bind_r.
  - apply pres_modify. intros s. reflexivity.
  - intros _. rewrite Hf. apply raises_raise.
Qed.

(** Walking a chat turn along a path that ends in an exception; [special]
    settles the step where the exception comes from. *)
Ltac walk_raise special H :=
  repeat first
    [ special H
    | match goal with
      | |- raises_rel _ (bind _ _) =>
          apply raises_bind_r; [solve [walk_pres leaf_messages] | intros ?]
      | |- raises_rel _ (catch _ _) => apply raises_catch; [ | intros ? ]
      | |- raises_rel _ (raise _) => apply raises_raise
      | |- raises_rel _ (match ?x with _ => _ end) => destruct x
      | |- raises_rel _ _ =>
          progress (cbv beta zeta; unfold handle_chat_message, handle_chat_body)
      end ].

Ltac generate_step Hgen :=
  match goal with
  | |- raises_rel _ (bind (generate_text _ _ _) _) =>
      apply raises_bind_l; eapply generate_raises; apply Hgen
  end.

Ltac upsert_step Hup :=
  match goal with
  | |- raises_rel _ (bind (catch (add_points _ chat_history [_]) _) _) =>
      apply raises_bind_l
  | |- raises_rel _ (add_points _ chat_history [_]) =>
      apply upsert_raises; apply Hup
  end.

Lemma handle_generate_raises env req e :
  (forall prompt model, sv_generate (ce_services env) prompt model = Raised e) ->
  raises_rel same_messages (handle_chat_message env req).
Proof.
  intros Hgen. walk_raise generate_step Hgen.
Qed.

Lemma handle_upsert_raises env req :
  (forall v, sv_upsert_ok (ce_services env) chat_history [user_point env req v] = false) ->
  raises_rel same_messages (handle_chat_message env req).
Proof.
  intros Hup. walk_raise upsert_step Hup.
Qed.

Lemma search_caught_equiv sv collection r :
  (forall r, sr_collection r = collection -> sv_search sv r = None) ->
  Mequiv (catch (search_points sv r) (fun _ => ret []))
         (catch (search_points (search_empty sv collection) r) (fun _ => ret [])).
Proof.
  intros Hnone s. unfold catch, search_points, bind. cbn.
  destruct (String.eqb (sr_collection r) collection) eqn:E.
  - apply String.eqb_eq in E. rewrite (Hnone r E). reflexivity.
  - reflexivity.
Qed.

Ltac walk_equiv H :=
  repeat first
    [ match goal with
      | |- Mequiv (catch (search_points _ _) _) (catch (search_points _ _) _) =>
          apply search_caught_equiv; exact H
      | |- Mequiv (bind _ _) (bind _ _) => apply equiv_bind; [ | intros ? ]
      | |- Mequiv (catch _ _) (catch _ _) => apply equiv_catch; [ | intros ? ]
      | |- Mequiv (match ?x with _ => _ end) _ => destruct x
      | |- Mequiv _ _ =>
          progress (cbv beta zeta;
                    unfold handle_chat_message, handle_chat_body, search_kb, search_uploads,
                      search_history;
                    cbn [with_services ce_services ce_user_message_id ce_ai_message_id
                         ce_timestamp ce_commit])
      | |- Mequiv _ _ => apply equiv_refl
      end ].

Lemma handle_search_equiv env req collection :
  (forall r, sr_collection r = collection -> sv_search (ce_services env) r = None) ->
  Mequiv (handle_chat_message env req)
         (handle_chat_message (with_services env (search_empty (ce_services env) collection)) req).
Proof. intros Hnone. walk_equiv Hnone. Qed.

Lemma fst_run_request {A} (m : M A) s : fst (run_request m s) = fst (m (set_pending [] s)).
Proof. unfold run_request. destruct (m (set_pending [] s)). reflexivity. Qed.

Lemma bind_gets {A B} (f : state -> A) (k : A -> M B) s : bind (gets f) k s = k (f s) s.
Proof. reflexivity. Qed.

Lemma catch_ok_at {A} (m : M A) h s :
  (exists a, fst (m s) = Ok a) -> exists a, fst (catch m h s) = Ok a.
Proof.
  intros [a Ha]. unfold catch. destruct (m s) as [o s'] eqn:E. cbn in Ha. subst o.
  exists a. reflexivity.
Qed.

Ltac walk_noraise Hemb Hup Hgen Hc :=
  repeat first
    [ match goal with
      | |- no_raise (bind (get_embeddings _ [_]) _) =>
          eapply noraise_bind_det;
            [ intros ?; unfold get_embeddings, bind; cbn; rewrite Hemb; reflexivity | ]
      | |- no_raise (catch _ _) =>
          first [ apply noraise_catch_handler; intros ?;
                  solve [walk_noraise Hemb Hup Hgen Hc]
                | apply noraise_catch_body ]
      | |- no_raise (bind _ _) => apply noraise_bind; [ | intros ? ]
      | |- no_raise (ret _) => apply noraise_ret
      | |- no_raise (gets _) => apply noraise_gets
      | |- no_raise (modify _) => apply noraise_modify
      | |- no_raise (generate_text _ ?p ?m) =>
          let t := fresh "t" in let Ht := fresh "Ht" in
          destruct (Hgen p m) as [t Ht]; unfold generate_text; rewrite Ht
      | |- context [sv_upsert_ok _ chat_history [user_point _ _ _]] => rewrite Hup
      | |- context [ce_commit _] => rewrite Hc
      | |- no_raise _ => progress (cbv beta iota zeta)
      | |- no_raise (match ?x with _ => _ end) => destruct x
      | |- no_raise _ => progress unfold_components
      end ].

Lemma handle_completes env req s v :
  find_conversation (req_conversation_id req) s <> None ->
  sv_embed (ce_services env) [req_query req] = Ok [v] ->
  (forall v, sv_upsert_ok (ce_services env) chat_history [user_point env req v] = true) ->
  (forall prompt model, exists t, sv_generate (ce_services env) prompt model = Ok t) ->
  ce_commit env = None ->
  exists resp, fst (chat_turn env req s) = Ok resp.
Proof.
  intros Hfind Hemb Hup Hgen Hc.
  unfold chat_turn. rewrite fst_run_request. unfold handle_chat_message.
  apply catch_ok_at. unfold handle_chat_body. cbv zeta.
  rewrite bind_gets. cbv beta. rewrite bind_gets. cbv beta.
  change (find_conversation (req_conversation_id req) (set_pending [] s))
    with (find_conversation (req_conversation_id req) s).
  destruct (find_conversation (req_conversation_id req) s) as [c|]; [|congruence].
  cbn [negb].
  match goal with
  | |- exists a, fst (?m (set_pending [] s)) = Ok a =>
      cut (no_raise m); [intros Hn; apply Hn|]
  end.
  walk_noraise Hemb Hup Hgen Hc.
Qed.

End ChatTurn.

Module Requests.
Import Effects ChatTurn.

Lemma find_update_kb_document kb_doc_id status error_msg ds :
  existsb (fun d => String.eqb (kd_id d) kb_doc_id) ds = true ->
  find (fun d => String.eqb (kd_id d) kb_doc_id)
       (update_kb_document kb_doc_id status error_msg ds) =
  Some (mk_kb_document kb_doc_id status error_msg).
Proof.
  induction ds as [|d ds IH]; cbn; [discriminate|].
  destruct (String.eqb (kd_id d) kb_doc_id) eqn:E; cbn.
  - intros _. apply String.eqb_eq in E. rewrite E, String.eqb_refl. reflexivity.
  - rewrite E. exact IH.
Qed.

Lemma kb_task_zero_chunks_state env kb_id kb_doc_id qdrant_doc_id filename s :
  existsb (fun d => String.eqb (kd_id d) kb_doc_id) (st_kb_documents s) = true ->
  kt_commit env = None -> is_image filename = false -> kt_process env = Ok [] ->
  st_kb_documents (kb_task_run env kb_id kb_doc_id qdrant_doc_id filename s) =
  update_kb_document kb_doc_id "error"
    (Some "Document processor returned no content for non-image file.") (st_kb_documents s).
Proof.
  intros Hex Hc Hi Hp.
  unfold kb_task_run, run_request, process_kb_upload_task, kb_task_body, kb_task_finalize.
  rewrite Hi. unfold kb_document_path. rewrite Hp.
  unfold bind, catch, ret, gets. cbn -[update_kb_document]. rewrite Hex, Hc. reflexivity.
Qed.

Lemma session_zero_chunks env conversation_id filename s :
  find_conversation conversation_id s <> None -> truthy filename = true ->
  is_image filename = false -> ue_process env = Ok [] ->
  fst (run_request (upload_file_to_conversation env conversation_id filename) s) =
  Ok (mk_upload_result "File received but no processable content found or generated."
        filename None 0).
Proof.
  intros Hfind Ht Hi Hp. rewrite fst_run_request.
  destruct (find_conversation conversation_id s) as [c|] eqn:Ef; [|congruence].
  assert (Hf : find_conversation conversation_id (set_pending [] s) = Some c) by exact Ef.
  unfold upload_file_to_conversation. rewrite bind_gets. cbv beta. rewrite Hf, Ht, Hi.
  cbn [negb]. rewrite Hp. reflexivity.
Qed.

Lemma create_unknown_kb env p kb s :
  cp_knowledge_base_id p = Some kb ->
  (cr_kb_check_error env <> None \/ mem kb (st_knowledge_bases s) = false) ->
  cr_commit env = None ->
  fst (run_request (create_conversation env (Some p)) s) =
    Ok (mk_conversation (cr_conversation_id env) None (Some (cp_model_id p))) /\
  st_conversations (snd (run_request (create_conversation env (Some p)) s)) =
    st_conversations s ++ [mk_conversation (cr_conversation_id env) None (Some (cp_model_id p))].
Proof.
  intros Hkb Hcase Hc.
  unfold run_request, create_conversation, check_kb. rewrite Hkb. cbn [truthy_opt].
  destruct (truthy kb) eqn:Ht; cbv beta iota zeta; unfold db_commit; rewrite Hc;
    [|split; reflexivity].
  rewrite Ht. destruct Hcase as [He | Hm].
  - destruct (cr_kb_check_error env) as [e|]; [|congruence]. split; reflexivity.
  - destruct (cr_kb_check_error env) as [e|]; [split; reflexivity|].
    unfold bind, catch, gets, ret. cbn [fst snd st_knowledge_bases set_pending].
    change (st_knowledge_bases (set_pending [] s)) with (st_knowledge_bases s).
    rewrite Hm. split; reflexivity.
Qed.

End Requests.

(* ------------------------------------------------------------------ *)
(** ** Concrete requests *)

Module Examples.

(** One conversation ["c1"] linked to the knowledge base ["kb1"]. *)
Definition ex_state : state :=
  mk_state [mk_conversation "c1" (Some "kb1") None] ["kb1"] [] [] [] [] [] [].

Definition ex_request : chat_request := mk_chat_request "What does the policy cover?" "c1".

Definition ex_hits : list hit :=
  [mk_hit "k1" 1 [("text", "The policy covers water damage."); ("filename", "policy.pdf")]].

Definition ex_services (upsert_ok : bool) (search : search_req -> option (list hit))
    (generation : outcome string) : services :=
  mk_services (fun texts => Ok (map (fun _ => [1%Q]) texts)) (fun _ _ => upsert_ok)
    search (fun _ _ => generation).

Definition ex_chat_env (sv : services) : chat_env :=
  mk_chat_env "m-user" "m-ai" "2024-05-01T10:00:00" sv None.

(** The provider's error after its retries. *)
Definition ex_generation_error : exn := HTTPException 502 "Together AI API error".

(** A search service whose upload partition is down. *)
Definition ex_search_uploads_down (r : search_req) : option (list hit) :=
  if String.eqb (sr_collection r) collection_uploads then None else Some ex_hits.

Definition ex_upload_env : upload_env :=
  mk_upload_env false (Ok None) (Ok []) "sd1" (fun _ => "p1") "ms1"
    (ex_services true (fun _ => Some []) (Ok "")) None.

Definition ex_kb_env : kb_task_env :=
  mk_kb_task_env true (Ok None) true (Ok None) (fun _ => []) (Ok []) (fun _ => "p1")
    (ex_services true (fun _ => Some []) (Ok "")) None.

Definition ex_kb_state : state :=
  mk_state [] ["kb1"] [] [] [mk_kb_document "d1" "processing" None] [] [] [].

Definition ex_create_env : create_env := mk_create_env "c2" None None.

End Examples.

Section ChatClaims.
Import Effects ChatTurn Requests Examples.

(** C1 (as stated): in a turn whose generation call raises, the turn
    fails and no Message row with speaker "user" is recorded afterwards. *)
Lemma generation_failure_counterexample :
  fst (chat_turn (ex_chat_env (ex_services true (fun _ => Some ex_hits)
                                 (Raised ex_generation_error))) ex_request ex_state) =
    Raised ex_generation_error /\
  existsb (fun m => String.eqb (msg_speaker m) "user")
    (st_messages (snd (chat_turn (ex_chat_env (ex_services true (fun _ => Some ex_hits)
                                   (Raised ex_generation_error))) ex_request ex_state))) = false.
Proof. split; vm_compute; reflexivity. Qed.

(** C1 (amended): if the generation call raises, the turn fails and the
    committed Message rows are exactly those before the turn: the user
    message is committed only together with the AI message, after
    generation. *)
Theorem generation_failure_keeps_messages (env : chat_env) (req : chat_request) (s : state)
  (e : exn) :
  (forall prompt model, sv_generate (ce_services env) prompt model = Raised e) ->
  (exists e', fst (chat_turn env req s) = Raised e') /\
  st_messages (snd (chat_turn env req s)) = st_messages s.
Proof. intros Hgen. apply run_request_raises, (handle_generate_raises env req e Hgen). Qed.

Lemma generation_failure_witness :
  (exists e', fst (chat_turn (ex_chat_env (ex_services true (fun _ => Some ex_hits)
                                (Raised ex_generation_error))) ex_request ex_state) = Raised e') /\
  st_messages (snd (chat_turn (ex_chat_env (ex_services true (fun _ => Some ex_hits)
                                (Raised ex_generation_error))) ex_request ex_state)) =
  st_messages ex_state.
Proof.
  apply (generation_failure_keeps_messages _ _ _ ex_generation_error).
  intros prompt model. reflexivity.
Defined.

(** C2: if the vector upsert of the user message fails, the turn fails
    and the committed Message rows are those before the turn. *)
Theorem user_upsert_failure_rolls_back (env : chat_env) (req : chat_request) (s : state) :
  (forall v, sv_upsert_ok (ce_services env) chat_history [user_point env req v] = false) ->
  (exists e, fst (chat_turn env req s) = Raised e) /\
  st_messages (snd (chat_turn env req s)) = st_messages s.
Proof. intros Hup. apply run_request_raises, (handle_upsert_raises env req Hup). Qed.

Lemma user_upsert_failure_witness :
  (exists e, fst (chat_turn (ex_chat_env (ex_services false (fun _ => Some ex_hits) (Ok "ok")))
                ex_request ex_state) = Raised e) /\
  st_messages (snd (chat_turn (ex_chat_env (ex_services false (fun _ => Some ex_hits) (Ok "ok")))
                ex_request ex_state)) = st_messages ex_state.
Proof. apply user_upsert_failure_rolls_back. intros v. reflexivity. Defined.

End ChatClaims.

Section RequestClaims.
Import Effects ChatTurn Requests Examples.

(** C7: when every search in one collection raises, the turn runs exactly
    as if that search had returned no hit (the exception is caught and the
    other partitions are used as they are); and the turn returns a
    response whenever the conversation exists and the embedding, the user
    vector upsert, the generation and the commit succeed, whatever the
    searches do. *)
Theorem search_failure_degrades (env : chat_env) (req : chat_request) (s : state)
  (collection : string) :
  (forall r, sr_collection r = collection -> sv_search (ce_services env) r = None) ->
  chat_turn env req s =
    chat_turn (with_services env (search_empty (ce_services env) collection)) req s /\
  (find_conversation (req_conversation_id req) s <> None ->
   forall v, sv_embed (ce_services env) [req_query req] = Ok [v] ->
   (forall v', sv_upsert_ok (ce_services env) chat_history [user_point env req v'] = true) ->
   (forall prompt model, exists t, sv_generate (ce_services env) prompt model = Ok t) ->
   ce_commit env = None ->
   exists resp, fst (chat_turn env req s) = Ok resp).
Proof.
  intros Hnone. split.
  - unfold chat_turn, run_request. rewrite (handle_search_equiv env req collection Hnone).
    reflexivity.
  - intros Hfind v Hemb Hup Hgen Hc. exact (handle_completes env req s v Hfind Hemb Hup Hgen Hc).
Qed.

Lemma search_failure_witness :
  chat_turn (ex_chat_env (ex_services true ex_search_uploads_down (Ok "It covers water damage.")))
    ex_request ex_state =
  chat_turn (with_services
               (ex_chat_env (ex_services true ex_search_uploads_down (Ok "It covers water damage.")))
               (search_empty (ex_services true ex_search_uploads_down
                                (Ok "It covers water damage.")) collection_uploads))
    ex_request ex_state /\
  exists resp,
    fst (chat_turn (ex_chat_env (ex_services true ex_search_uploads_down
                                   (Ok "It covers water damage.")))
           ex_request ex_state) = Ok resp.
Proof.
  destruct (search_failure_degrades
              (ex_chat_env (ex_services true ex_search_uploads_down (Ok "It covers water damage.")))
              ex_request ex_state collection_uploads) as [Heq Hok].
  - intros r Hr. cbn. unfold ex_search_uploads_down. rewrite Hr. reflexivity.
  - split; [exact Heq|]. apply (Hok ltac:(discriminate) [1%Q]).
    + reflexivity.
    + intros v'. reflexivity.
    + intros prompt model. exists "It covers water damage.". reflexivity.
    + reflexivity.
Defined.

(** C9: every search a chat turn issues is capped per collection: 4 in
    collection_kb, 3 in collection_uploads and 3 + 1 = 4 in
    collection_chat_history; the log of calls only grows. *)
Theorem search_caps (env : chat_env) (req : chat_request) (s : state) :
  log_capped s (snd (chat_turn env req s)).
Proof. apply run_request_log, handle_log_capped. Qed.

(** C8 (as stated): a knowledge-base upload of a non-image file from
    which the processor extracts no chunk ends with the document in status
    "error". *)
Lemma zero_chunks_counterexample :
  kb_document_status "d1" (kb_task_run ex_kb_env "kb1" "d1" "q1" "notes.txt" ex_kb_state) =
  Some "error".
Proof. vm_compute. reflexivity. Qed.

(** C8 (amended): on the session path, zero chunks give the non-error
    result "File received but no processable content found or generated."
    with 0 chunks added; in the knowledge-base background task, zero
    chunks from the processor of a non-image file set the document's
    status to "error" with the message "Document processor returned no
    content for non-image file.". *)
Theorem zero_chunks_paths (uenv : upload_env) (conversation_id filename : string) (s : state)
  (kenv : kb_task_env) (kb_id kb_doc_id qdrant_doc_id kb_filename : string) (ks : state) :
  find_conversation conversation_id s <> None -> truthy filename = true ->
  is_image filename = false -> ue_process uenv = Ok [] ->
  existsb (fun d => String.eqb (kd_id d) kb_doc_id) (st_kb_documents ks) = true ->
  kt_commit kenv = None -> is_image kb_filename = false -> kt_process kenv = Ok [] ->
  fst (run_request (upload_file_to_conversation uenv conversation_id filename) s) =
    Ok (mk_upload_result "File received but no processable content found or generated."
          filename None 0) /\
  find (fun d => String.eqb (kd_id d) kb_doc_id)
    (st_kb_documents (kb_task_run kenv kb_id kb_doc_id qdrant_doc_id kb_filename ks)) =
    Some (mk_kb_document kb_doc_id "error"
            (Some "Document processor returned no content for non-image file.")) /\
  kb_document_status kb_doc_id (kb_task_run kenv kb_id kb_doc_id qdrant_doc_id kb_filename ks) =
    Some "error".
Proof.
  intros Hf Ht Hi Hp Hex Hc Hki Hkp.
  assert (Hfind : find (fun d => String.eqb (kd_id d) kb_doc_id)
    (st_kb_documents (kb_task_run kenv kb_id kb_doc_id qdrant_doc_id kb_filename ks)) =
    Some (mk_kb_document kb_doc_id "error"
            (Some "Document processor returned no content for non-image file."))).
  { rewrite (kb_task_zero_chunks_state kenv kb_id kb_doc_id qdrant_doc_id kb_filename ks
               Hex Hc Hki Hkp).
    apply find_update_kb_document. exact Hex. }
  split; [exact (session_zero_chunks uenv conversation_id filename s Hf Ht Hi Hp)|].
  split; [exact Hfind|]. unfold kb_document_status. rewrite Hfind. reflexivity.
Qed.

Lemma zero_chunks_witness :
  fst (run_request (upload_file_to_conversation ex_upload_env "c1" "notes.txt") ex_state) =
    Ok (mk_upload_result "File received but no processable content found or generated."
          "notes.txt" None 0) /\
  find (fun d => String.eqb (kd_id d) "d1")
    (st_kb_documents (kb_task_run ex_kb_env "kb1" "d1" "q1" "notes.txt" ex_kb_state)) =
    Some (mk_kb_document "d1" "error"
            (Some "Document processor returned no content for non-image file.")) /\
  kb_document_status "d1" (kb_task_run ex_kb_env "kb1" "d1" "q1" "notes.txt" ex_kb_state) =
    Some "error".
Proof.
  apply zero_chunks_paths; [discriminate | reflexivity | reflexivity | reflexivity
                           | reflexivity | reflexivity | reflexivity | reflexivity].
Defined.

(** C10: a create request whose knowledge_base_id names no KnowledgeBase
    row, or whose existence check raises, succeeds and stores (and
    returns) the new conversation with a null knowledge-base link. *)
Theorem unknown_kb_dropped (env : create_env) (p : create_payload) (kb : string) (s : state) :
  cp_knowledge_base_id p = Some kb ->
  (cr_kb_check_error env <> None \/ mem kb (st_knowledge_bases s) = false) ->
  cr_commit env = None ->
  exists c,
    fst (run_request (create_conversation env (Some p)) s) = Ok c /\
    conv_knowledge_base_id c = None /\
    In c (st_conversations (snd (run_request (create_conversation env (Some p)) s))).
Proof.
  intros Hkb Hcase Hc. destruct (create_unknown_kb env p kb s Hkb Hcase Hc) as [Ho Hs].
  eexists. split; [exact Ho|]. split; [reflexivity|].
  rewrite Hs. apply in_or_app. right. left. reflexivity.
Qed.

Lemma unknown_kb_witness :
  exists c,
    fst (run_request (create_conversation ex_create_env
           (Some (mk_create_payload (Some "kb-unknown") default_model_id))) ex_state) = Ok c /\
    conv_knowledge_base_id c = None /\
    In c (st_conversations (snd (run_request (create_conversation ex_create_env
           (Some (mk_create_payload (Some "kb-unknown") default_model_id))) ex_state))).
Proof.
  apply (unknown_kb_dropped _ _ "kb-unknown"); [reflexivity | right; reflexivity | reflexivity].
Defined.

(** A chat turn on the linked knowledge base; its three hits are the
    same vector id, so the context has one block. *)
Lemma context_priority_witness :
  exists K U H,
    fst (combine_context "m-user" ex_hits ex_hits ex_hits) = K ++ U ++ H /\
    K <> [] /\
    Forall kb_label_ok K /\
    Forall (fun b => blk_part b = PUpload) U /\
    Forall (fun b => blk_part b = PHistory) H.
Proof.
  apply context_priority_order. exists (mk_hit "k1" 1 [("text", "The policy covers water damage.");
                                                      ("filename", "policy.pdf")]).
  split; [left; reflexivity | reflexivity].
Defined.

Lemma empty_context_witness :
  finalize_context [] = no_context_sentence.
Proof. exact (proj1 (proj2 (empty_context_fallback [])) eq_refl). Defined.

End RequestClaims.

Section Runs.
Import Examples.

(** A successful turn commits the user and the AI message, in this
    order, and issues the three searches with their caps. *)
Lemma ex_turn_commits :
  map msg_speaker (st_messages (snd (chat_turn (ex_chat_env (ex_services true
     (fun _ => Some ex_hits) (Ok "It covers water damage."))) ex_request ex_state))) =
  ["user"; "ai"] /\
  map (fun c => match c with CSearch r => Some (sr_collection r, sr_limit r) | _ => None end)
    (st_log (snd (chat_turn (ex_chat_env (ex_services true
     (fun _ => Some ex_hits) (Ok "It covers water damage."))) ex_request ex_state))) =
  [None; None; Some (collection_kb, 4%Z); Some (collection_uploads, 3%Z);
   Some (chat_history, 4%Z); None; None; None].
Proof. split; vm_compute; reflexivity. Qed.

End Runs.

Module Extra.
Import Effects ChatTurn Requests.

Lemma upload_points_text env cid filename chunks : forall embeddings i,
  length embeddings = length chunks ->
  map (fun p => pget (pt_payload p) "text") (upload_points env cid filename i chunks embeddings) =
  map Some chunks.
Proof.
  induction chunks as [|c cs IH]; intros [|e es] i Hl; cbn in *; try discriminate; [reflexivity|].
  f_equal. apply IH. lia.
Qed.

Lemma upload_points_length env cid filename chunks : forall embeddings i,
  length embeddings = length chunks ->
  length (upload_points env cid filename i chunks embeddings) = length chunks.
Proof.
  induction chunks as [|c cs IH]; intros [|e es] i Hl; cbn in *; try discriminate; [reflexivity|].
  f_equal. apply IH. lia.
Qed.

Ltac upload_prefix Hfind Ht Hi Hp :=
  let c := fresh "c" in let Ef := fresh "Ef" in let Hf := fresh "Hf" in
  match goal with |- context [run_request (upload_file_to_conversation _ ?cid _) ?s] =>
    destruct (find_conversation cid s) as [c|] eqn:Ef; [|congruence];
    assert (Hf : find_conversation cid (set_pending [] s) = Some c) by exact Ef
  end;
  unfold run_request, upload_file_to_conversation; rewrite bind_gets; cbv beta;
  rewrite Hf, Ht, Hi; cbn [negb]; rewrite Hp;
  unfold reraise_http, get_embeddings, add_points, db_commit, db_add, log_call, store_points,
    bind, catch, ret, raise, gets, modify; cbn -[upload_points].

Lemma session_upload_run env conversation_id filename s chunks embeddings :
  find_conversation conversation_id s <> None -> truthy filename = true ->
  is_image filename = false -> ue_process env = Ok chunks -> chunks <> [] ->
  sv_embed (ue_services env) chunks = Ok embeddings -> length embeddings = length chunks ->
  sv_upsert_ok (ue_services env) collection_uploads
    (upload_points env conversation_id filename 0 chunks embeddings) = true ->
  let pts := upload_points env conversation_id filename 0 chunks embeddings in
  let doc := mk_uploaded_document conversation_id (ue_session_doc_id env) filename in
  let msg := mk_message (ue_system_message_id env) conversation_id "system"
               ("Processed session file: " ++ filename) in
  run_request (upload_file_to_conversation env conversation_id filename) s =
  match ue_commit env with
  | None =>
      (Ok (mk_upload_result "Session file processed and indexed successfully." filename
             (Some (ue_session_doc_id env)) (Z.of_nat (length chunks))),
       mk_state (st_conversations s) (st_knowledge_bases s) (st_messages s ++ [msg])
         (st_uploaded_documents s ++ [doc]) (st_kb_documents s) []
         (st_points s ++ map (fun p => (collection_uploads, p)) pts)
         (st_log s ++ [CEmbed chunks; CUpsert collection_uploads pts]))
  | Some e =>
      (Raised (HTTPException 500
         ("File indexed in vector store, but failed to save metadata to DB: " ++
          "DB Error saving session upload metadata: " ++ exn_str e)),
       mk_state (st_conversations s) (st_knowledge_bases s) (st_messages s)
         (st_uploaded_documents s) (st_kb_documents s) []
         (st_points s ++ map (fun p => (collection_uploads, p)) pts)
         (st_log s ++ [CEmbed chunks; CUpsert collection_uploads pts]))
  end.
Proof.
  intros Hfind Ht Hi Hp Hne He Hl Hup.
  destruct chunks as [|ch chs]; [congruence|].
  destruct embeddings as [|em ems]; [discriminate|].
  upload_prefix Hfind Ht Hi Hp.
  rewrite He. cbn -[upload_points].
  assert (Hl2 : length ems = length chs) by (cbn in Hl; lia). rewrite Hl2, Nat.eqb_refl.
  cbn -[upload_points]. rewrite Hup.
  destruct (ue_commit env) as [e|]; cbn -[upload_points].
  - cbn. rewrite <- app_assoc. reflexivity.
  - cbn. rewrite <- ?app_assoc. rewrite upload_points_length by exact Hl2.
    reflexivity.
Qed.

Lemma same_store_reset s : same_store s (set_pending [] (set_pending [] s)).
Proof. repeat split. Qed.

(** A chat message and a session upload naming a conversation that does not
    exist both fail with 404 "Conversation ID '<id>' not found." before any
    service is called, and leave the store as it was. *)
Theorem unknown_conversation_rejected env req uenv filename s :
  find_conversation (req_conversation_id req) s = None ->
  chat_turn env req s =
    (Raised (HTTPException 404 ("Conversation ID '" ++ req_conversation_id req ++ "' not found.")),
     set_pending [] (set_pending [] s)) /\
  run_request (upload_file_to_conversation uenv (req_conversation_id req) filename) s =
    (Raised (HTTPException 404 ("Conversation ID '" ++ req_conversation_id req ++ "' not found.")),
     set_pending [] (set_pending [] s)).
Proof.
  intros Hn. assert (Hf : find_conversation (req_conversation_id req) (set_pending [] s) = None)
    by exact Hn.
  split.
  - unfold chat_turn, run_request, handle_chat_message, handle_chat_body. cbv zeta.
    unfold catch. rewrite bind_gets. cbv beta. rewrite bind_gets. cbv beta. rewrite Hf.
    reflexivity.
  - unfold run_request, upload_file_to_conversation. rewrite bind_gets. cbv beta. rewrite Hf.
    reflexivity.
Qed.

(** [upload_file_to_conversation] with an image file: without Cloudinary it
    fails with a 501; when Cloudinary returns no URL, the 500 raised inside
    the [try] is turned into a 502.  Nothing is stored either way. *)
Theorem session_image_rejected env conversation_id filename s :
  find_conversation conversation_id s <> None -> truthy filename = true ->
  is_image filename = true ->
  (ue_cloudinary_enabled env = false ->
   run_request (upload_file_to_conversation env conversation_id filename) s =
   (Raised (HTTPException 501 "Image uploads require Cloudinary configuration."),
    set_pending [] (set_pending [] s))) /\
  (ue_cloudinary_enabled env = true ->
   ue_cloudinary_upload env = Ok None \/ ue_cloudinary_upload env = Ok (Some "") ->
   run_request (upload_file_to_conversation env conversation_id filename) s =
   (Raised (HTTPException 502 ("Failed to upload image to Cloudinary: " ++
      "500: Cloudinary upload succeeded but returned no URL.")),
    set_pending [] (set_pending [] s))).
Proof.
  intros Hfind Ht Hi.
  destruct (find_conversation conversation_id s) as [c|] eqn:Ef; [|congruence].
  assert (Hf : find_conversation conversation_id (set_pending [] s) = Some c) by exact Ef.
  unfold run_request, upload_file_to_conversation. rewrite bind_gets. cbv beta.
  rewrite Hf, Ht, Hi. cbn [negb]. split.
  - intros Hd. rewrite Hd. reflexivity.
  - intros Hd Hu. rewrite Hd. destruct Hu as [Hu|Hu]; rewrite Hu; reflexivity.
Qed.

(** [upload_file_to_conversation]: when the embedding step fails (an
    [HTTPException] of the provider passes through, any other exception
    becomes a 502, a count mismatch a 500), the request fails with that
    error; no point, message or document row is written and only the
    embedding call was made. *)
Theorem session_upload_embedding_failure env conversation_id filename s chunks e :
  find_conversation conversation_id s <> None -> truthy filename = true ->
  is_image filename = false -> ue_process env = Ok chunks -> chunks <> [] ->
  (match sv_embed (ue_services env) chunks with
   | Ok embeddings => length embeddings <> length chunks /\
       e = HTTPException 500 "Mismatch between number of chunks and embeddings received."
   | Raised (HTTPException c d) => e = HTTPException c d
   | Raised (PyException msg) => e = HTTPException 502 ("Failed to generate embeddings: " ++ msg)
   end) ->
  let r := run_request (upload_file_to_conversation env conversation_id filename) s in
  fst r = Raised e /\
  st_points (snd r) = st_points s /\ st_messages (snd r) = st_messages s /\
  st_uploaded_documents (snd r) = st_uploaded_documents s /\
  st_log (snd r) = st_log s ++ [CEmbed chunks].
Proof.
  intros Hfind Ht Hi Hp Hne He. cbv zeta.
  destruct chunks as [|ch chs]; [congruence|].
  upload_prefix Hfind Ht Hi Hp.
  destruct (sv_embed (ue_services env) (ch :: chs)) as [embs|[code d|msg]]; cbn -[upload_points].
  - destruct He as [Hl ->]. destruct (Nat.eqb (length embs) (S (length chs))) eqn:El.
    + apply Nat.eqb_eq in El. cbn in Hl. congruence.
    + cbn. repeat split.
  - subst e. cbn. repeat split.
  - subst e. cbn. repeat split.
Qed.

Lemma upload_points_conversation env cid filename chunks : forall embeddings i,
  length embeddings = length chunks ->
  map (fun p => pget (pt_payload p) "conversation_id")
      (upload_points env cid filename i chunks embeddings) =
  repeat (Some cid) (length chunks).
Proof.
  induction chunks as [|c cs IH]; intros [|e es] i Hl; cbn in *; try discriminate; [reflexivity|].
  f_equal. apply IH. lia.
Qed.

(** [upload_file_to_conversation] on a document: when extraction, embedding,
    the upsert and the commit succeed, it reports the number of chunks,
    stores one point per chunk (carrying the chunk text and the
    conversation id) in [collection_uploads], and commits the
    [UploadedDocument] row and a system message. *)
Theorem session_upload_success env conversation_id filename s chunks embeddings :
  find_conversation conversation_id s <> None -> truthy filename = true ->
  is_image filename = false -> ue_process env = Ok chunks -> chunks <> [] ->
  sv_embed (ue_services env) chunks = Ok embeddings -> length embeddings = length chunks ->
  sv_upsert_ok (ue_services env) collection_uploads
    (upload_points env conversation_id filename 0 chunks embeddings) = true ->
  ue_commit env = None ->
  let pts := upload_points env conversation_id filename 0 chunks embeddings in
  let r := run_request (upload_file_to_conversation env conversation_id filename) s in
  fst r = Ok (mk_upload_result "Session file processed and indexed successfully." filename
                (Some (ue_session_doc_id env)) (Z.of_nat (length chunks))) /\
  st_uploaded_documents (snd r) =
    st_uploaded_documents s ++ [mk_uploaded_document conversation_id (ue_session_doc_id env) filename] /\
  st_messages (snd r) =
    st_messages s ++ [mk_message (ue_system_message_id env) conversation_id "system"
                        ("Processed session file: " ++ filename)] /\
  st_points (snd r) = st_points s ++ map (fun p => (collection_uploads, p)) pts /\
  map (fun p => pget (pt_payload p) "text") pts = map Some chunks /\
  map (fun p => pget (pt_payload p) "conversation_id") pts = repeat (Some conversation_id) (length chunks).
Proof.
  intros Hfind Ht Hi Hp Hne He Hl Hup Hc. cbv zeta.
  rewrite (session_upload_run env conversation_id filename s chunks embeddings
             Hfind Ht Hi Hp Hne He Hl Hup). rewrite Hc. cbn [fst snd st_uploaded_documents
             st_messages st_points].
  repeat split; [apply upload_points_text; exact Hl|].
  apply upload_points_conversation; exact Hl.
Qed.

(** [upload_file_to_conversation]: when the final commit fails, the points
    already upserted stay in the vector store but no [UploadedDocument]
    row and no system message are recorded; the request fails with a 500. *)
Theorem session_upload_metadata_failure env conversation_id filename s chunks embeddings e :
  find_conversation conversation_id s <> None -> truthy filename = true ->
  is_image filename = false -> ue_process env = Ok chunks -> chunks <> [] ->
  sv_embed (ue_services env) chunks = Ok embeddings -> length embeddings = length chunks ->
  sv_upsert_ok (ue_services env) collection_uploads
    (upload_points env conversation_id filename 0 chunks embeddings) = true ->
  ue_commit env = Some e ->
  let pts := upload_points env conversation_id filename 0 chunks embeddings in
  let r := run_request (upload_file_to_conversation env conversation_id filename) s in
  fst r = Raised (HTTPException 500
            ("File indexed in vector store, but failed to save metadata to DB: " ++
             "DB Error saving session upload metadata: " ++ exn_str e)) /\
  st_uploaded_documents (snd r) = st_uploaded_documents s /\
  st_messages (snd r) = st_messages s /\
  st_points (snd r) = st_points s ++ map (fun p => (collection_uploads, p)) pts.
Proof.
  intros Hfind Ht Hi Hp Hne He Hl Hup Hc. cbv zeta.
  rewrite (session_upload_run env conversation_id filename s chunks embeddings
             Hfind Ht Hi Hp Hne He Hl Hup). rewrite Hc.
  repeat split.
Qed.

#[export] Instance same_tables_preorder : PreOrder same_tables.
Proof.
  split; [intros s; repeat split | intros s1 s2 s3; unfold same_tables; intuition congruence].
Qed.

Lemma ok_sat_ret {A} (P : A -> Prop) a : P a -> ok_sat P (ret a).
Proof. intros Ha s a' E. cbn in E. congruence. Qed.

Lemma ok_sat_raise {A} (P : A -> Prop) e : ok_sat P (raise e).
Proof. intros s a E. discriminate E. Qed.

Lemma ok_sat_bind {A B} (P : B -> Prop) (m : M A) (k : A -> M B) :
  (forall a, ok_sat P (k a)) -> ok_sat P (bind m k).
Proof.
  intros Hk s b. unfold bind. destruct (m s) as [[a|e] s']; [apply Hk | discriminate].
Qed.

Lemma ok_sat_catch {A} (P : A -> Prop) (m : M A) (h : exn -> M A) :
  ok_sat P m -> (forall e, ok_sat P (h e)) -> ok_sat P (catch m h).
Proof.
  intros Hm Hh s a. unfold catch. specialize (Hm s).
  destruct (m s) as [[a'|e] s']; [apply Hm | apply Hh].
Qed.

Ltac walk_ok :=
  repeat match goal with
  | |- ok_sat _ (bind _ _) => apply ok_sat_bind; intros ?
  | |- ok_sat _ (catch _ _) => apply ok_sat_catch; [ | intros ? ]
  | |- ok_sat _ (ret _) => apply ok_sat_ret
  | |- ok_sat _ (raise _) => apply ok_sat_raise
  | |- ok_sat _ (if ?b then _ else _) => destruct b
  | |- ok_sat _ (match ?x with _ => _ end) => destruct x
  end.

Lemma kb_task_body_status env kb_id qdrant_doc_id filename :
  ok_sat task_status_ok
    (catch (kb_task_body env kb_id qdrant_doc_id filename)
           (fun rte => ret ("error", Some (exn_str rte)))).
Proof.
  unfold kb_task_body. walk_ok; cbv beta;
    try (right; reflexivity); try (left; split; reflexivity).
Qed.

Ltac leaf_tables := unfold same_tables; cbn; repeat split.

Lemma kb_task_body_tables env kb_id qdrant_doc_id filename :
  preserves same_tables
    (catch (kb_task_body env kb_id qdrant_doc_id filename)
           (fun rte => ret ("error", Some (exn_str rte)))).
Proof.
  unfold kb_task_body, kb_image_path, kb_document_path. walk_pres leaf_tables.
Qed.

Lemma bind_ok_at {A B} (m : M A) (k : A -> M B) s a s' :
  m s = (Ok a, s') -> bind m k s = k a s'.
Proof. intros E. unfold bind. rewrite E. reflexivity. Qed.

Lemma kb_task_run_outcome env kb_id kb_doc_id qdrant_doc_id filename s :
  let r := run_request (process_kb_upload_task env kb_id kb_doc_id qdrant_doc_id filename) s in
  fst r = Ok tt /\
  st_conversations (snd r) = st_conversations s /\
  st_knowledge_bases (snd r) = st_knowledge_bases s /\
  st_messages (snd r) = st_messages s /\
  st_uploaded_documents (snd r) = st_uploaded_documents s /\
  (existsb (fun d => String.eqb (kd_id d) kb_doc_id) (st_kb_documents s) = true ->
   kt_commit env = None ->
   exists status error_msg,
     find (fun d => String.eqb (kd_id d) kb_doc_id) (st_kb_documents (snd r)) =
       Some (mk_kb_document kb_doc_id status error_msg) /\
     ((status = "completed" /\ error_msg = None) \/ (status = "error" /\ error_msg <> None))) /\
  (existsb (fun d => String.eqb (kd_id d) kb_doc_id) (st_kb_documents s) = false \/
   kt_commit env <> None ->
   st_kb_documents (snd r) = st_kb_documents s).
Proof.
  cbv zeta. unfold run_request, process_kb_upload_task.
  set (m := catch (kb_task_body env kb_id qdrant_doc_id filename)
                  (fun rte => ret ("error", Some (exn_str rte)))).
  pose proof (kb_task_body_tables env kb_id qdrant_doc_id filename (set_pending [] s)) as Ht.
  pose proof (kb_task_body_status env kb_id qdrant_doc_id filename (set_pending [] s)) as Hs.
  fold m in Ht, Hs.
  destruct (m (set_pending [] s)) as [[[status error_msg]|e] s2] eqn:E; cbn in Ht, Hs.
  2:{ exfalso. assert (Hn : no_raise m) by (apply noraise_catch_handler; intros; apply noraise_ret).
      destruct (Hn (set_pending [] s)) as [a Ha]. rewrite E in Ha. discriminate Ha. }
  rewrite (bind_ok_at _ _ _ _ _ E).
  specialize (Hs _ eq_refl). destruct Ht as (H1 & H2 & H3 & H4 & H5). cbn in H1, H2, H3, H4, H5.
  unfold kb_task_finalize. cbv zeta. rewrite bind_gets. cbv beta. rewrite H5.
  destruct (existsb (fun d => String.eqb (kd_id d) kb_doc_id) (st_kb_documents s)) eqn:Hex.
  - destruct (kt_commit env) as [ce|] eqn:Hc; cbn;
      split; try reflexivity; do 4 (split; [assumption|]); split.
    + intros _ Hf. discriminate Hf.
    + intros _. exact H5.
    + intros _ _. rewrite H5. rewrite find_update_kb_document by exact Hex.
      eexists; eexists; split; [reflexivity|].
      destruct Hs as [[Hst Hm]|Hst]; cbn in Hst.
      * left. subst status. split; [reflexivity|]. exact Hm.
      * right. subst status. split; [reflexivity|]. cbn.
        destruct error_msg; discriminate.
    + intros [Hf|Hf]; congruence.
  - cbn. split; [reflexivity|]. do 4 (split; [assumption|]). split.
    + intros Hf. discriminate Hf.
    + intros _. exact H5.
Qed.

(** [process_kb_upload_task] never raises and writes no table but
    [KnowledgeBaseDocument]; when the row exists and the status commit
    succeeds it ends "completed" without error message or "error" with one;
    otherwise the rows are unchanged. *)
Theorem kb_task_outcome env kb_id kb_doc_id qdrant_doc_id filename s :
  let r := run_request (process_kb_upload_task env kb_id kb_doc_id qdrant_doc_id filename) s in
  fst r = Ok tt /\
  st_conversations (snd r) = st_conversations s /\
  st_knowledge_bases (snd r) = st_knowledge_bases s /\
  st_messages (snd r) = st_messages s /\
  st_uploaded_documents (snd r) = st_uploaded_documents s /\
  (existsb (fun d => String.eqb (kd_id d) kb_doc_id) (st_kb_documents s) = true ->
   kt_commit env = None ->
   exists status error_msg,
     find (fun d => String.eqb (kd_id d) kb_doc_id) (st_kb_documents (snd r)) =
       Some (mk_kb_document kb_doc_id status error_msg) /\
     ((status = "completed" /\ error_msg = None) \/ (status = "error" /\ error_msg <> None))) /\
  (existsb (fun d => String.eqb (kd_id d) kb_doc_id) (st_kb_documents s) = false \/
   kt_commit env <> None ->
   st_kb_documents (snd r) = st_kb_documents s).
Proof. apply kb_task_run_outcome. Qed.


Lemma kb_points_payload env kb_id qdrant_doc_id filename chunks : forall embeddings i,
  length embeddings = length chunks ->
  length (kb_points env kb_id qdrant_doc_id filename i chunks embeddings) = length chunks /\
  map (fun p => pget (pt_payload p) "text") (kb_points env kb_id qdrant_doc_id filename i chunks embeddings) =
    map Some chunks /\
  map (fun p => pget (pt_payload p) "kb_id") (kb_points env kb_id qdrant_doc_id filename i chunks embeddings) =
    repeat (Some kb_id) (length chunks).
Proof.
  induction chunks as [|c cs IH]; intros [|e es] i Hl; cbn in *; try discriminate; [auto|].
  destruct (IH es (S i)) as (H1 & H2 & H3); [lia|]. rewrite H1, H2, H3. auto.
Qed.

(** [process_kb_upload_task] on a document: with as many embeddings as
    chunks and a successful upsert, the row becomes "completed" and one
    point per chunk (with its text and the KB id) is stored in
    [collection_kb]; with a different count, the row becomes "error"
    ("Embedding count mismatch.") and nothing is stored. *)
Theorem kb_task_indexes env kb_id kb_doc_id qdrant_doc_id filename s chunks embeddings :
  existsb (fun d => String.eqb (kd_id d) kb_doc_id) (st_kb_documents s) = true ->
  kt_commit env = None -> is_image filename = false ->
  kt_process env = Ok chunks -> chunks <> [] ->
  sv_embed (kt_services env) chunks = Ok embeddings ->
  let pts := kb_points env kb_id qdrant_doc_id filename 0 chunks embeddings in
  (length embeddings = length chunks ->
   sv_upsert_ok (kt_services env) collection_kb pts = true ->
   let s' := kb_task_run env kb_id kb_doc_id qdrant_doc_id filename s in
   st_kb_documents s' = update_kb_document kb_doc_id "completed" None (st_kb_documents s) /\
   st_points s' = st_points s ++ map (fun p => (collection_kb, p)) pts /\
   map (fun p => pget (pt_payload p) "text") pts = map Some chunks /\
   map (fun p => pget (pt_payload p) "kb_id") pts = repeat (Some kb_id) (length chunks)) /\
  (length embeddings <> length chunks ->
   let s' := kb_task_run env kb_id kb_doc_id qdrant_doc_id filename s in
   st_kb_documents s' =
     update_kb_document kb_doc_id "error" (Some "Embedding count mismatch.") (st_kb_documents s) /\
   st_points s' = st_points s /\ st_log s' = st_log s ++ [CEmbed chunks]).
Proof.
  intros Hex Hc Hi Hp Hne He. cbv zeta.
  destruct chunks as [|ch chs]; [congruence|].
  unfold kb_task_run, run_request, process_kb_upload_task, kb_task_body, kb_task_finalize.
  rewrite Hi. unfold kb_document_path. rewrite Hp.
  unfold get_embeddings, add_points, log_call, store_points, bind, catch, ret, gets, modify, raise.
  cbn -[update_kb_document kb_points]. rewrite He. cbn -[update_kb_document kb_points].
  split.
  - intros Hl Hup.
    assert (Hl2 : length embeddings = S (length chs)) by exact Hl.
    rewrite Hl2, Nat.eqb_refl. cbn -[update_kb_document kb_points].
    destruct embeddings as [|em ems]; [discriminate|].
    cbn [kb_points]. cbn [kb_points] in Hup. rewrite Hup.
    cbn -[update_kb_document kb_points]. rewrite Hex, Hc.
    destruct (kb_points_payload env kb_id qdrant_doc_id filename (ch :: chs) (em :: ems) 0 Hl)
      as (_ & Ht & Hk). cbn [kb_points] in Ht, Hk.
    cbn -[update_kb_document kb_points]. split; [reflexivity|].
    split; [rewrite <- ?app_assoc; reflexivity|]. split; assumption.
  - intros Hl. destruct (Nat.eqb (length embeddings) (S (length chs))) eqn:El.
    + apply Nat.eqb_eq in El. cbn in Hl. congruence.
    + cbn -[update_kb_document kb_points]. rewrite Hex, Hc. repeat split.
Qed.

(** [process_kb_upload_task] on an image: without Cloudinary, or when
    Cloudinary returns no URL, the row is marked "error" with the matching
    message and no service is called. *)
Theorem kb_task_image_rejected env kb_id kb_doc_id qdrant_doc_id filename s :
  existsb (fun d => String.eqb (kd_id d) kb_doc_id) (st_kb_documents s) = true ->
  kt_commit env = None -> is_image filename = true ->
  (kt_cloudinary_bg_enabled env = false ->
   let s' := kb_task_run env kb_id kb_doc_id qdrant_doc_id filename s in
   st_kb_documents s' = update_kb_document kb_doc_id "error"
     (Some "Image detected, but Cloudinary is not configured/enabled.") (st_kb_documents s) /\
   st_points s' = st_points s /\ st_log s' = st_log s) /\
  (kt_cloudinary_bg_enabled env = true ->
   kt_cloudinary_upload env = Ok None \/ kt_cloudinary_upload env = Ok (Some "") ->
   let s' := kb_task_run env kb_id kb_doc_id qdrant_doc_id filename s in
   st_kb_documents s' = update_kb_document kb_doc_id "error"
     (Some "Cloudinary upload exception: Cloudinary upload failed (no URL returned).")
     (st_kb_documents s) /\
   st_points s' = st_points s /\ st_log s' = st_log s).
Proof.
  intros Hex Hc Hi. cbv zeta.
  unfold kb_task_run, run_request, process_kb_upload_task, kb_task_body, kb_task_finalize.
  rewrite Hi. unfold kb_image_path. split.
  - intros Hd. rewrite Hd.
    unfold bind, catch, ret, gets, raise. cbn -[update_kb_document]. rewrite Hex, Hc.
    repeat split.
  - intros Hd Hu. rewrite Hd.
    destruct Hu as [Hu|Hu]; rewrite Hu;
      unfold bind, catch, ret, gets, raise; cbn -[update_kb_document]; rewrite Hex, Hc;
      repeat split.
Qed.

Lemma check_kb_pure env k s : exists o, check_kb env k s = (Ok o, s).
Proof.
  unfold check_kb. destruct k as [kb|]; [|eexists; reflexivity].
  destruct (truthy kb); [|eexists; reflexivity].
  destruct (cr_kb_check_error env); eexists; reflexivity.
Qed.

(** [create_conversation]: a failed commit gives a 500 whose detail chains
    the two wrappers, and no table changes. *)
Theorem create_conversation_commit_failure env payload s e :
  cr_commit env = Some e ->
  let r := run_request (create_conversation env payload) s in
  fst r = Raised (HTTPException 500 ("Failed to create conversation: " ++
                   "Database error during conversation creation: " ++ exn_str e)) /\
  same_tables s (snd r).
Proof.
  intros Hc. cbv zeta. unfold run_request, create_conversation. cbv zeta.
  match goal with |- context [bind (check_kb env ?k) _ (set_pending [] s)] =>
    destruct (check_kb_pure env k (set_pending [] s)) as [o Ho]; rewrite (bind_ok_at _ _ _ _ _ Ho)
  end.
  unfold db_commit. rewrite Hc. cbn. repeat split.
Qed.

(** [create_conversation] with a successful commit: without a payload the
    conversation gets no knowledge base and the default model; with an
    existing knowledge base it is linked to it and to the requested model.
    The row is appended to the conversations. *)
Theorem create_conversation_stores env s :
  cr_commit env = None ->
  (let r := run_request (create_conversation env None) s in
   let conv := mk_conversation (cr_conversation_id env) None (Some default_model_id) in
   fst r = Ok conv /\ st_conversations (snd r) = st_conversations s ++ [conv]) /\
  (forall kb model, truthy kb = true -> cr_kb_check_error env = None ->
   mem kb (st_knowledge_bases s) = true ->
   let r := run_request (create_conversation env (Some (mk_create_payload (Some kb) model))) s in
   let conv := mk_conversation (cr_conversation_id env) (Some kb) (Some model) in
   fst r = Ok conv /\ st_conversations (snd r) = st_conversations s ++ [conv]).
Proof.
  intros Hc. split.
  - cbv zeta. unfold run_request, create_conversation, check_kb, db_commit. rewrite Hc.
    split; reflexivity.
  - intros kb model Ht He Hm. cbv zeta.
    assert (Hk : check_kb env (Some kb) (set_pending [] s) = (Ok (Some kb), set_pending [] s)).
    { unfold check_kb. rewrite Ht, He. unfold catch, bind, gets, ret. cbn [fst snd].
      change (st_knowledge_bases (set_pending [] s)) with (st_knowledge_bases s).
      rewrite Hm. reflexivity. }
    unfold run_request, create_conversation. cbn [truthy_opt cp_knowledge_base_id].
    rewrite Ht. rewrite (bind_ok_at _ _ _ _ _ Hk). unfold db_commit. rewrite Hc.
    split; reflexivity.
Qed.

Lemma caught_search_silent sv r : db_silent (catch (search_points sv r) (fun _ => ret [])).
Proof.
  intros s. unfold catch, search_points, log_call, bind, modify.
  destruct (sv_search sv r); cbn; do 2 eexists; split; try reflexivity; repeat split.
Qed.

Lemma search_kb_silent env kb v : db_silent (search_kb env kb v).
Proof.
  unfold search_kb. destruct kb as [kb|]; [destruct (truthy kb)|];
    try apply caught_search_silent;
    intros s; do 2 eexists; split; try reflexivity; repeat split.
Qed.

Lemma search_uploads_silent env cid v : db_silent (search_uploads env cid v).
Proof. apply caught_search_silent. Qed.

Lemma search_history_silent env cid v : db_silent (search_history env cid v).
Proof. apply caught_search_silent. Qed.

Lemma store_ai_point_silent env cid text : db_silent (store_ai_point env cid text).
Proof.
  intros s. unfold store_ai_point, catch, get_embeddings, add_points, log_call, store_points,
    bind, modify, ret, raise.
  destruct (sv_embed (ce_services env) [text]) as [[|x xs]|e]; cbn;
    [| destruct (sv_upsert_ok _ _ _); cbn |];
    do 2 eexists; split; try reflexivity; repeat split.
Qed.

Ltac silent_step :=
  match goal with
  | |- context [search_kb ?env ?k ?v ?st] =>
      let h := fresh "hits" in let s' := fresh "s" in let E := fresh "E" in
      let T := fresh "T" in let P := fresh "P" in
      destruct (search_kb_silent env k v st) as (h & s' & E & T & P); rewrite E
  | |- context [search_uploads ?env ?k ?v ?st] =>
      let h := fresh "hits" in let s' := fresh "s" in let E := fresh "E" in
      let T := fresh "T" in let P := fresh "P" in
      destruct (search_uploads_silent env k v st) as (h & s' & E & T & P); rewrite E
  | |- context [search_history ?env ?k ?v ?st] =>
      let h := fresh "hits" in let s' := fresh "s" in let E := fresh "E" in
      let T := fresh "T" in let P := fresh "P" in
      destruct (search_history_silent env k v st) as (h & s' & E & T & P); rewrite E
  | |- context [store_ai_point ?env ?k ?v ?st] =>
      let h := fresh "u" in let s' := fresh "s" in let E := fresh "E" in
      let T := fresh "T" in let P := fresh "P" in
      destruct (store_ai_point_silent env k v st) as (h & s' & E & T & P); rewrite E
  end.

(** A chat turn whose embedding, user upsert and generation succeed: when
    the final commit succeeds it returns the generated text and records the
    user message then the AI message; when it fails it gives a 500 and no
    message of the turn is recorded. *)
Theorem chat_turn_commits env req s v t :
  find_conversation (req_conversation_id req) s <> None ->
  sv_embed (ce_services env) [req_query req] = Ok [v] ->
  sv_upsert_ok (ce_services env) chat_history [user_point env req v] = true ->
  (forall prompt model, sv_generate (ce_services env) prompt model = Ok t) ->
  let r := chat_turn env req s in
  let user := mk_message (ce_user_message_id env) (req_conversation_id req) "user" (req_query req) in
  let ai := mk_message (ce_ai_message_id env) (req_conversation_id req) "ai" t in
  match ce_commit env with
  | None => (exists sources, fst r = Ok (mk_chat_response t (req_conversation_id req) sources)) /\
            st_messages (snd r) = st_messages s ++ [user; ai]
  | Some e => fst r = Raised (HTTPException 500
                ("An internal error occurred during chat processing: Database commit error: "
                 ++ exn_str e)) /\
              st_messages (snd r) = st_messages s
  end.
Proof.
  intros Hfind Hemb Hup Hgen. cbv zeta.
  destruct (find_conversation (req_conversation_id req) s) as [c|] eqn:Ef; [|congruence].
  assert (Hf : find_conversation (req_conversation_id req) (set_pending [] s) = Some c) by exact Ef.
  unfold chat_turn, run_request, handle_chat_message, handle_chat_body. cbv zeta.
  unfold catch. rewrite !bind_gets. cbv beta. rewrite !Hf.
  cbn [negb].
  unfold get_embeddings, add_points, 
    sync_commit_messages, generate_text, db_add, db_commit, db_rollback,
    log_call, store_points, bind, catch, ret, raise, gets, modify.
  cbn -[combine_context finalize_context build_prompt user_point search_kb search_uploads search_history store_ai_point].
  rewrite Hemb. cbn -[combine_context finalize_context build_prompt user_point search_kb search_uploads search_history store_ai_point].
  rewrite Hup. cbn -[combine_context finalize_context build_prompt user_point search_kb search_uploads search_history store_ai_point].
  silent_step. cbn -[combine_context finalize_context build_prompt user_point search_kb search_uploads search_history store_ai_point].
  silent_step. cbn -[combine_context finalize_context build_prompt user_point search_kb search_uploads search_history store_ai_point].
  silent_step. cbn -[combine_context finalize_context build_prompt user_point search_kb search_uploads search_history store_ai_point].
  destruct (combine_context (ce_user_message_id env) hits hits0 hits1) as [cc src].
  rewrite Hgen. cbn -[combine_context finalize_context build_prompt user_point search_kb search_uploads search_history store_ai_point].
  silent_step. cbn -[combine_context finalize_context build_prompt user_point search_kb search_uploads search_history store_ai_point].
  unfold same_tables in *. cbn in T, P.
  destruct T as (T1' & T2' & T3' & T4' & T5'). destruct T0 as (T01 & T02 & T03 & T04 & T05).
  destruct T1 as (T11 & T12 & T13 & T14 & T15).
  destruct T2 as (T21 & T22 & T23 & T24 & T25). cbn in T21, T22, T23, T24, T25, P2.
  rewrite P1, P0, P in P2.
  destruct (ce_commit env) as [e|]; cbn.
  - split; [reflexivity|]. congruence.
  - rewrite P2. cbn. split; [eexists; reflexivity|]. rewrite T23, T13, T03, T3', <- app_assoc. reflexivity.
Qed.

(** [upload_kb_document]: the [HTTPException(404)] for an unknown
    knowledge base is raised inside the [try] whose [except Exception]
    turns it into a 500; a failing query gives a 500 too; nothing is
    written or queued. *)
Theorem kb_upload_unknown_kb env kb_id filename s :
  (forall e, ku_kb_check_error env = Some e ->
     run_request (upload_kb_document env kb_id filename) s =
     (Raised (HTTPException 500 ("DB error checking KB: " ++ exn_str e)),
      set_pending [] (set_pending [] s))) /\
  (ku_kb_check_error env = None -> mem kb_id (st_knowledge_bases s) = false ->
     run_request (upload_kb_document env kb_id filename) s =
     (Raised (HTTPException 500 ("DB error checking KB: 404: KB ID '" ++ kb_id ++ "' not found.")),
      set_pending [] (set_pending [] s))).
Proof.
  split.
  - intros e He. unfold run_request, upload_kb_document. rewrite He. reflexivity.
  - intros He Hm. unfold run_request, upload_kb_document. rewrite He.
    unfold catch, bind, gets, ret, raise. cbn -[mem].
    change (st_knowledge_bases (set_pending [] s)) with (st_knowledge_bases s). rewrite Hm.
    reflexivity.
Qed.


Lemma kb_upload_committed env kb_id filename s :
  ku_kb_check_error env = None -> mem kb_id (st_knowledge_bases s) = true ->
  truthy filename = true -> truthy (ku_file_content env) = true -> ku_flush_error env = None ->
  ku_commit env = None ->
  run_request (upload_kb_document env kb_id filename) s =
  (Ok (mk_kb_upload_response 1 [] [mk_kb_document (ku_kb_doc_id env) "processing" None],
       [mk_kb_task_args kb_id (ku_kb_doc_id env) (ku_qdrant_doc_id env) filename]),
   set_pending [] (set_kb_documents
     (st_kb_documents s ++ [mk_kb_document (ku_kb_doc_id env) "processing" None])
     (set_pending [] s))).
Proof.
  intros He Hm Hf Hc Hfl Hce. unfold run_request, upload_kb_document. rewrite He.
  unfold catch, bind, gets, ret, raise, db_rollback, modify. cbn -[mem truthy].
  change (st_knowledge_bases (set_pending [] s)) with (st_knowledge_bases s). rewrite Hm.
  cbn -[truthy]. rewrite Hf, Hc, Hfl. cbn. rewrite Hce. reflexivity.
Qed.

(** An accepted knowledge-base upload commits one row in status
    "processing" and queues one task for it; once that task has run (its
    status commit succeeding), the row is "completed" without error or
    "error" with an error message: it is never left "processing". *)
Theorem kb_upload_then_task env kb_id filename s tenv :
  ku_kb_check_error env = None -> mem kb_id (st_knowledge_bases s) = true ->
  truthy filename = true -> truthy (ku_file_content env) = true -> ku_flush_error env = None ->
  ku_commit env = None -> kt_commit tenv = None ->
  let r := run_request (upload_kb_document env kb_id filename) s in
  fst r = Ok (mk_kb_upload_response 1 [] [mk_kb_document (ku_kb_doc_id env) "processing" None],
              [mk_kb_task_args kb_id (ku_kb_doc_id env) (ku_qdrant_doc_id env) filename]) /\
  st_kb_documents (snd r) = st_kb_documents s ++ [mk_kb_document (ku_kb_doc_id env) "processing" None] /\
  let s' := kb_task_run tenv kb_id (ku_kb_doc_id env) (ku_qdrant_doc_id env) filename (snd r) in
  exists status error_msg,
    find (fun d => String.eqb (kd_id d) (ku_kb_doc_id env)) (st_kb_documents s') =
      Some (mk_kb_document (ku_kb_doc_id env) status error_msg) /\
    ((status = "completed" /\ error_msg = None) \/ (status = "error" /\ error_msg <> None)).
Proof.
  intros He Hm Hf Hc Hfl Hce Htc. cbv zeta.
  rewrite (kb_upload_committed env kb_id filename s He Hm Hf Hc Hfl Hce). cbn [fst snd].
  split; [reflexivity|]. split; [reflexivity|].
  pose proof (kb_task_run_outcome tenv kb_id (ku_kb_doc_id env) (ku_qdrant_doc_id env) filename
    (set_pending [] (set_kb_documents
      (st_kb_documents s ++ [mk_kb_document (ku_kb_doc_id env) "processing" None])
      (set_pending [] s)))) as H.
  cbv zeta in H. destruct H as (_ & _ & _ & _ & _ & Hrow & _).
  apply Hrow; [|exact Htc].
  cbn. rewrite existsb_app. cbn. rewrite String.eqb_refl, orb_true_r. reflexivity.
Qed.

Lemma ensure_loop_fresh existing recreate names :
  forall n, In n (ensure_loop existing recreate names) -> In n names /\ mem n existing = false.
Proof.
  induction names as [|m ms IH]; cbn; [tauto|]. intros n.
  destruct (mem m existing) eqn:Hm.
  - intros H. destruct (IH n H). auto.
  - destruct (recreate m); cbn; [tauto|]. intros [<-|H]; [auto|]. destruct (IH n H); auto.
Qed.

Lemma ensure_loop_all existing recreate names :
  (forall n, In n names -> recreate n = None) ->
  forall n, In n names -> mem n existing = true \/ In n (ensure_loop existing recreate names).
Proof.
  induction names as [|m ms IH]; cbn; [tauto|]. intros Hr n Hn.
  destruct (mem m existing) eqn:Hm.
  - destruct Hn as [<-|Hn]; [auto|]. apply IH; auto.
  - rewrite (Hr m (or_introl eq_refl)). destruct Hn as [<-|Hn]; [cbn; auto|].
    destruct (IH (fun k Hk => Hr k (or_intror Hk)) n Hn); cbn; auto.
Qed.

Lemma mem_In x xs : mem x xs = true <-> In x xs.
Proof.
  unfold mem. rewrite existsb_exists. split.
  - intros (y & Hy & He). apply String.eqb_eq in He. subst. exact Hy.
  - intros H. exists x. split; [exact H | apply String.eqb_refl].
Qed.

(** [ensure_collections_exist] keeps every collection the server had and
    only creates collections of [collections_to_ensure] that were missing:
    an existing collection is never recreated (its points are never
    dropped).  When listing the collections and every creation succeed,
    the three collections exist afterwards. *)
Theorem ensure_collections_exist_spec get_err recreate collections :
  let after := ensure_collections_exist get_err recreate collections in
  (exists created, after = collections ++ created /\
     forall n, In n created -> In n collections_to_ensure /\ ~ In n collections) /\
  (get_err = None -> (forall n, recreate n = None) ->
   forall n, In n collections_to_ensure -> In n after).
Proof.
  cbv zeta. unfold ensure_collections_exist. split.
  - destruct get_err.
    + exists []. rewrite app_nil_r. split; [reflexivity | cbn; tauto].
    + eexists. split; [reflexivity|]. intros n Hn.
      destruct (ensure_loop_fresh _ _ _ n Hn) as [H1 H2]. split; [exact H1|].
      intros Hc. apply mem_In in Hc. congruence.
  - intros -> Hr n Hn. apply in_or_app.
    destruct (ensure_loop_all collections recreate collections_to_ensure (fun k _ => Hr k) n Hn)
      as [H|H]; [left; apply mem_In; exact H | right; exact H].
Qed.


Local Open Scope nat_scope.


Lemma str_app_assoc (a b c : string) : ((a ++ b) ++ c)%string = (a ++ (b ++ c))%string.
Proof. induction a as [|x a IH]; cbn; [reflexivity | rewrite IH; reflexivity]. Qed.






Lemma lines_text_app xs ys : lines_text (xs ++ ys) = (lines_text xs ++ lines_text ys)%string.
Proof. induction xs as [|x xs IH]; cbn; [reflexivity|]. rewrite IH, !str_app_assoc. reflexivity. Qed.







Lemma tenacity_loop_spec {A} (run : nat -> outcome A) : forall left k,
  let (r, j) := tenacity_loop k left run in
  k <= j <= k + left /\ (forall i, k <= i < j -> exists e, run i = Raised e) /\
  match r with
  | RetryOk a => run j = Ok a
  | RetryError e => j = k + left /\ run j = Raised e
  end.
Proof.
  induction left as [|l IH]; intros k; cbn [tenacity_loop];
    destruct (run k) as [a|e] eqn:Ek.
  - split; [lia|]. split; [intros i Hi; lia | exact Ek].
  - split; [lia|]. split; [intros i Hi; lia | split; [lia | exact Ek]].
  - split; [lia|]. split; [intros i Hi; lia | exact Ek].
  - specialize (IH (S k)). destruct (tenacity_loop (S k) l run) as [r j].
    destruct IH as (Hj & Hbefore & Hr). split; [lia|]. split.
    + intros i Hi. destruct (Nat.eq_dec i k) as [->|Hne]; [exists e; exact Ek|].
      apply Hbefore. lia.
    + destruct r; [exact Hr | destruct Hr as [Hj' Hr]; split; [lia | exact Hr]].
Qed.

Lemma tenacity_loop_ext {A} (run run' : nat -> outcome A) : forall left k,
  (forall i, k <= i <= k + left -> run' i = run i) ->
  tenacity_loop k left run' = tenacity_loop k left run.
Proof.
  induction left as [|l IH]; intros k Hext; cbn [tenacity_loop];
    rewrite (Hext k) by lia; [reflexivity|].
  destruct (run k); [reflexivity|]. apply IH. intros i Hi. apply Hext. lia.
Qed.

Lemma retry_spec {A} (n : nat) (run : nat -> outcome A) : 1 <= n ->
  let (r, j) := retry_stop_after_attempt n run in
  1 <= j <= n /\ (forall i, 1 <= i < j -> exists e, run i = Raised e) /\
  match r with
  | RetryOk a => run j = Ok a
  | RetryError e => j = n /\ run j = Raised e
  end.
Proof.
  intros Hn. unfold retry_stop_after_attempt.
  pose proof (tenacity_loop_spec run (n - 1) 1) as H.
  destruct (tenacity_loop 1 (n - 1) run) as [r j]. destruct H as (Hj & Hb & Hr).
  split; [lia|]. split; [exact Hb|]. destruct r; [exact Hr | destruct Hr as [Hj' Hr]; split; [lia|exact Hr]].
Qed.

Lemma hf_attempt_ok texts response v :
  hf_attempt texts response = Ok v ->
  length v = length texts /\
  (forall v0, hd_error v = Some v0 -> length v0 = EXPECTED_EMBEDDING_DIMENSION).
Proof.
  unfold hf_attempt. destruct texts as [|t ts].
  - intros E. injection E as <-. split; [reflexivity | intros v0 H; discriminate H].
  - destruct response as [e|code err|e|body]; try discriminate.
    destruct (match body with Some items => hf_all_lists items | None => None end)
      as [result|]; [|discriminate].
    destruct (Nat.eqb (length result) (length (t :: ts))) eqn:El; cbn [negb]; [|discriminate].
    apply Nat.eqb_eq in El.
    destruct result as [|r0 rs]; intros E.
    + injection E as <-. split; [exact El | intros v0 H; discriminate H].
    + destruct (Nat.eqb (length r0) EXPECTED_EMBEDDING_DIMENSION) eqn:Ed; cbn [negb] in E;
        [|discriminate]. injection E as <-. split; [exact El|].
      intros v0 H. injection H as <-. apply Nat.eqb_eq. exact Ed.
Qed.

(** [EmbeddingService.get_embeddings]: an empty list of texts is answered
    with [] at the first attempt; otherwise what it returns has one vector
    per text, the first of the expected dimension 768; it makes at most 4
    attempts, and its result depends on the first four responses only. *)
Theorem hf_get_embeddings_result (texts : list string) (responses : nat -> hf_response) :
  let (r, j) := hf_get_embeddings texts responses in
  1 <= j <= 4 /\
  (texts = [] -> r = RetryOk [] /\ j = 1) /\
  (forall v, r = RetryOk v ->
     length v = length texts /\ (forall v0, hd_error v = Some v0 -> length v0 = 768)) /\
  (forall responses', (forall i, 1 <= i <= 4 -> responses' i = responses i) ->
     hf_get_embeddings texts responses' = (r, j)).
Proof.
  unfold hf_get_embeddings.
  pose proof (retry_spec 4 (fun k => hf_attempt texts (responses k)) ltac:(lia)) as H.
  destruct (retry_stop_after_attempt 4 (fun k => hf_attempt texts (responses k))) as [r j] eqn:E.
  destruct H as (Hj & Hb & Hr). split; [exact Hj|]. split; [|split].
  - intros ->. unfold retry_stop_after_attempt in E. cbn in E. injection E as <- <-.
    split; reflexivity.
  - intros v ->. apply (hf_attempt_ok texts (responses j) v Hr).
  - intros responses' Hext. rewrite <- E. unfold retry_stop_after_attempt.
    apply tenacity_loop_ext. intros i Hi. cbn beta. rewrite Hext by lia. reflexivity.
Qed.

(** [EmbeddingService.get_embeddings] on a non-empty list: a transport
    error gives a 503, an error status of the API keeps its own status
    code, any other failure a 500; when all four attempts fail the caller
    gets tenacity's [RetryError] holding the fourth attempt's exception,
    not that [HTTPException] itself. *)
Theorem hf_get_embeddings_errors (texts : list string) (responses : nat -> hf_response) :
  texts <> [] ->
  (forall i msg, responses i = HFRequestError msg ->
     exists d, hf_attempt texts (responses i) = Raised (HTTPException 503 d)) /\
  (forall i code err, responses i = HFStatusError code err ->
     hf_attempt texts (responses i) = Raised (HTTPException code (hf_status_detail code err))) /\
  (forall i msg, responses i = HFOtherError msg ->
     exists d, hf_attempt texts (responses i) = Raised (HTTPException 500 d)) /\
  ((forall i, 1 <= i <= 4 -> exists e, hf_attempt texts (responses i) = Raised e) ->
   exists e, hf_get_embeddings texts responses = (RetryError e, 4) /\
             hf_attempt texts (responses 4) = Raised e).
Proof.
  intros Hne. destruct texts as [|t ts]; [congruence|].
  split; [|split; [|split]].
  - intros i msg E. rewrite E. eexists. reflexivity.
  - intros i code err E. rewrite E. reflexivity.
  - intros i msg E. rewrite E. eexists. reflexivity.
  - intros Hall. unfold hf_get_embeddings.
    pose proof (retry_spec 4 (fun k => hf_attempt (t :: ts) (responses k)) ltac:(lia)) as H.
    destruct (retry_stop_after_attempt 4 (fun k => hf_attempt (t :: ts) (responses k)))
      as [[v|e] j]; destruct H as (Hj & Hb & Hr).
    + destruct (Hall j ltac:(lia)) as [e He]. cbn beta in Hr. congruence.
    + destruct Hr as [-> Hr]. exists e. split; [reflexivity | exact Hr].
Qed.


(** ** Concrete instances of the theorems above *)

Import Examples.

Ltac concrete := first [ reflexivity | vm_compute; discriminate | vm_compute; reflexivity | lia ].

(** A session upload of two chunks; [commit] is what [db.commit()] raises. *)
Definition wx_upload_env (commit : option exn) : upload_env :=
  mk_upload_env false (Ok None) (Ok ["alpha"; "beta"]) "sd1" (fun _ => "p1") "ms1"
    (ex_services true (fun _ => Some []) (Ok "")) commit.

(** An embedding provider that fails with a plain exception. *)
Definition wx_embed_down : services :=
  mk_services (fun _ => Raised (PyException "connection reset")) (fun _ _ => true)
    (fun _ => Some []) (fun _ _ => Ok "").

Definition wx_kb_env (cloudinary : bool) : kb_task_env :=
  mk_kb_task_env cloudinary (Ok None) true (Ok None) (fun _ => []) (Ok ["alpha"])
    (fun _ => "p1") (ex_services true (fun _ => Some []) (Ok "")) None.

Definition wx_kb_upload_env : kb_upload_env :=
  mk_kb_upload_env None "d2" "q2" "some text" None None.

Definition wx_db_error : exn := PyException "disk I/O error".

Lemma unknown_conversation_rejected_witness :
  find_conversation "c9" ex_state = None /\
  chat_turn (ex_chat_env (ex_services true (fun _ => Some []) (Ok "")))
    (mk_chat_request "q" "c9") ex_state =
    (Raised (HTTPException 404 ("Conversation ID '" ++ "c9" ++ "' not found.")),
     set_pending [] (set_pending [] ex_state)) /\
  run_request (upload_file_to_conversation ex_upload_env "c9" "notes.txt") ex_state =
    (Raised (HTTPException 404 ("Conversation ID '" ++ "c9" ++ "' not found.")),
     set_pending [] (set_pending [] ex_state)).
Proof.
  split; [concrete|].
  apply (unknown_conversation_rejected _ (mk_chat_request "q" "c9")); concrete.
Defined.

Lemma session_image_rejected_witness :
  find_conversation "c1" ex_state <> None /\ truthy "photo.png" = true /\
  is_image "photo.png" = true /\
  run_request (upload_file_to_conversation ex_upload_env "c1" "photo.png") ex_state =
   (Raised (HTTPException 501 "Image uploads require Cloudinary configuration."),
    set_pending [] (set_pending [] ex_state)).
Proof.
  split; [concrete|]. split; [concrete|]. split; [concrete|].
  apply (session_image_rejected ex_upload_env "c1" "photo.png" ex_state); concrete.
Defined.

Lemma session_upload_embedding_failure_witness :
  let env := mk_upload_env false (Ok None) (Ok ["alpha"]) "sd1" (fun _ => "p1") "ms1"
               wx_embed_down None in
  ue_process env = Ok ["alpha"] /\
  let r := run_request (upload_file_to_conversation env "c1" "notes.txt") ex_state in
  fst r = Raised (HTTPException 502 ("Failed to generate embeddings: " ++ "connection reset")) /\
  st_points (snd r) = st_points ex_state /\ st_messages (snd r) = st_messages ex_state /\
  st_uploaded_documents (snd r) = st_uploaded_documents ex_state /\
  st_log (snd r) = st_log ex_state ++ [CEmbed ["alpha"]].
Proof.
  cbv zeta. split; [concrete|].
  apply (session_upload_embedding_failure _ "c1" "notes.txt" ex_state ["alpha"]); concrete.
Defined.

Lemma session_upload_success_witness :
  ue_process (wx_upload_env None) = Ok ["alpha"; "beta"] /\
  let pts := upload_points (wx_upload_env None) "c1" "notes.txt" 0 ["alpha"; "beta"] [[1%Q]; [1%Q]] in
  let r := run_request (upload_file_to_conversation (wx_upload_env None) "c1" "notes.txt") ex_state in
  fst r = Ok (mk_upload_result "Session file processed and indexed successfully." "notes.txt"
                (Some "sd1") 2) /\
  st_uploaded_documents (snd r) = [mk_uploaded_document "c1" "sd1" "notes.txt"] /\
  st_messages (snd r) = [mk_message "ms1" "c1" "system" ("Processed session file: " ++ "notes.txt")] /\
  st_points (snd r) = map (fun p => (collection_uploads, p)) pts /\
  map (fun p => pget (pt_payload p) "text") pts = [Some "alpha"; Some "beta"] /\
  map (fun p => pget (pt_payload p) "conversation_id") pts = [Some "c1"; Some "c1"].
Proof.
  cbv zeta. split; [concrete|].
  apply (session_upload_success (wx_upload_env None) "c1" "notes.txt" ex_state
           ["alpha"; "beta"] [[1%Q]; [1%Q]]); concrete.
Defined.

Lemma session_upload_metadata_failure_witness :
  ue_commit (wx_upload_env (Some wx_db_error)) = Some wx_db_error /\
  let pts := upload_points (wx_upload_env (Some wx_db_error)) "c1" "notes.txt" 0
               ["alpha"; "beta"] [[1%Q]; [1%Q]] in
  let r := run_request (upload_file_to_conversation (wx_upload_env (Some wx_db_error)) "c1" "notes.txt")
             ex_state in
  fst r = Raised (HTTPException 500
            ("File indexed in vector store, but failed to save metadata to DB: " ++
             "DB Error saving session upload metadata: " ++ exn_str wx_db_error)) /\
  st_uploaded_documents (snd r) = [] /\ st_messages (snd r) = [] /\
  st_points (snd r) = map (fun p => (collection_uploads, p)) pts.
Proof.
  cbv zeta. split; [concrete|].
  apply (session_upload_metadata_failure (wx_upload_env (Some wx_db_error)) "c1" "notes.txt"
           ex_state ["alpha"; "beta"] [[1%Q]; [1%Q]]); concrete.
Defined.

Lemma kb_task_indexes_witness :
  kt_process (wx_kb_env true) = Ok ["alpha"] /\
  let pts := kb_points (wx_kb_env true) "kb1" "q1" "notes.txt" 0 ["alpha"] [[1%Q]] in
  let s' := kb_task_run (wx_kb_env true) "kb1" "d1" "q1" "notes.txt" ex_kb_state in
  st_kb_documents s' = [mk_kb_document "d1" "completed" None] /\
  st_points s' = map (fun p => (collection_kb, p)) pts /\
  map (fun p => pget (pt_payload p) "text") pts = [Some "alpha"] /\
  map (fun p => pget (pt_payload p) "kb_id") pts = [Some "kb1"].
Proof.
  cbv zeta. split; [concrete|].
  apply (kb_task_indexes (wx_kb_env true) "kb1" "d1" "q1" "notes.txt" ex_kb_state
           ["alpha"] [[1%Q]]); concrete.
Defined.

Lemma kb_task_image_rejected_witness :
  is_image "scan.png" = true /\ kt_cloudinary_bg_enabled (wx_kb_env false) = false /\
  let s' := kb_task_run (wx_kb_env false) "kb1" "d1" "q1" "scan.png" ex_kb_state in
  st_kb_documents s' = [mk_kb_document "d1" "error"
    (Some "Image detected, but Cloudinary is not configured/enabled.")] /\
  st_points s' = [] /\ st_log s' = [].
Proof.
  cbv zeta. split; [concrete|]. split; [concrete|].
  apply (kb_task_image_rejected (wx_kb_env false) "kb1" "d1" "q1" "scan.png" ex_kb_state); concrete.
Defined.

Lemma create_conversation_commit_failure_witness :
  cr_commit (mk_create_env "c2" None (Some wx_db_error)) = Some wx_db_error /\
  let r := run_request (create_conversation (mk_create_env "c2" None (Some wx_db_error)) None) ex_state in
  fst r = Raised (HTTPException 500 ("Failed to create conversation: " ++
                   "Database error during conversation creation: " ++ exn_str wx_db_error)) /\
  same_tables ex_state (snd r).
Proof.
  cbv zeta. split; [concrete|].
  apply (create_conversation_commit_failure _ None ex_state wx_db_error); concrete.
Defined.

Lemma create_conversation_stores_witness :
  cr_commit ex_create_env = None /\
  let r := run_request (create_conversation ex_create_env
             (Some (mk_create_payload (Some "kb1") "mistral"))) ex_state in
  fst r = Ok (mk_conversation "c2" (Some "kb1") (Some "mistral")) /\
  st_conversations (snd r) = st_conversations ex_state ++ [mk_conversation "c2" (Some "kb1") (Some "mistral")].
Proof.
  cbv zeta. split; [concrete|].
  apply (create_conversation_stores ex_create_env ex_state); concrete.
Defined.

Lemma chat_turn_commits_witness :
  let env := ex_chat_env (ex_services true (fun _ => Some []) (Ok "It covers water damage.")) in
  sv_embed (ce_services env) [req_query ex_request] = Ok [[1%Q]] /\
  let r := chat_turn env ex_request ex_state in
  (exists sources, fst r = Ok (mk_chat_response "It covers water damage." "c1" sources)) /\
  st_messages (snd r) =
    [mk_message "m-user" "c1" "user" "What does the policy cover?";
     mk_message "m-ai" "c1" "ai" "It covers water damage."].
Proof.
  cbv zeta. split; [concrete|].
  exact (chat_turn_commits (ex_chat_env (ex_services true (fun _ => Some []) (Ok "It covers water damage.")))
           ex_request ex_state [1%Q] "It covers water damage."
           ltac:(concrete) ltac:(concrete) ltac:(concrete) (fun _ _ => eq_refl)).
Defined.


Lemma kb_upload_then_task_witness :
  mem "kb1" (st_knowledge_bases ex_state) = true /\
  let r := run_request (upload_kb_document wx_kb_upload_env "kb1" "notes.txt") ex_state in
  fst r = Ok (mk_kb_upload_response 1 [] [mk_kb_document "d2" "processing" None],
              [mk_kb_task_args "kb1" "d2" "q2" "notes.txt"]) /\
  st_kb_documents (snd r) = [mk_kb_document "d2" "processing" None] /\
  let s' := kb_task_run (wx_kb_env true) "kb1" "d2" "q2" "notes.txt" (snd r) in
  exists status error_msg,
    find (fun d => String.eqb (kd_id d) "d2") (st_kb_documents s') =
      Some (mk_kb_document "d2" status error_msg) /\
    ((status = "completed" /\ error_msg = None) \/ (status = "error" /\ error_msg <> None)).
Proof.
  cbv zeta. split; [concrete|].
  apply (kb_upload_then_task wx_kb_upload_env "kb1" "notes.txt" ex_state (wx_kb_env true)); concrete.
Defined.

Lemma hf_get_embeddings_errors_witness :
  ["a"] <> [] /\
  exists e, hf_get_embeddings ["a"] (fun _ => HFRequestError "timeout") = (RetryError e, 4) /\
            hf_attempt ["a"] (HFRequestError "timeout") = Raised e.
Proof.
  split; [concrete|].
  apply (hf_get_embeddings_errors ["a"] (fun _ => HFRequestError "timeout")); [concrete|].
  intros i _. eexists. reflexivity.
Defined.

End Extra.
